(** * Business Metrics Engine

    A shallow embedding of [src/tools/business_metrics_engine.py]: the metric
    catalogue [METRIC_DEFINITIONS], the time filter [_filter_by_time] and the
    dispatch of [calculate] over the aggregation formulas, followed by the
    properties of the engine that its specification states.

    Conventions of the embedding.
    - A Python [str] is a Rocq [string] holding its UTF-8 bytes; byte-wise
      lexicographic order is code-point order.  [str.isdigit] and [int]
      follow Python 3.11 (Unicode 14).
    - A Python / numpy [float] is a primitive binary64 [float]; the scalar
      arithmetic of the source ([-], [/], [*], [>]) is the IEEE arithmetic of
      [PrimFloat].
    - A pandas frame is the list of its rows.  Its columns have the types
      they have in the file the data generator writes: text, int64, float64
      and dates.  A cell of text, a float and a date may be missing; a date
      cell may also carry the text of the exception [pd.to_datetime] raises
      on it.
    - What the engine leaves to pandas, numpy and the Python runtime, and
      their documentation does not fix (the order of the additions of a
      sum, the order of equal values after a sort) or fixes by tables out of
      proportion here ([repr] of a string), is a [Library], an argument of
      the engine; [reference] is one such library, used where an example
      needs values.
    - A Python exception is the [Raise] case of [result]; its payload is
      [str(e)].
    - The file system consulted by [os.path.exists] and [pd.read_csv] is an
      explicit argument. *)

From Stdlib Require Import ZArith List String Ascii Bool Lia.
From Stdlib Require Import DecimalString Sorting.Sorted Sorting.Permutation.
From Stdlib Require Import Floats Uint63.
Import ListNotations.

Local Open Scope string_scope.
Local Open Scope Z_scope.

(* ================================================================== *)
(** ** Python runtime: exceptions, strings, number formatting *)
(* ================================================================== *)

Module Py.

(** The outcome of a Python expression that may raise. *)
Inductive result (A : Type) : Type :=
| Ok (a : A)
| Raise (e : string).
Arguments Ok {A} a.
Arguments Raise {A} e.

Definition bind {A B : Type} (r : result A) (k : A -> result B) : result B :=
  match r with
  | Ok a => k a
  | Raise e => Raise e
  end.

(** [x or y] on optional strings: [None] and the empty string are falsy. *)
Definition or_ (x y : option string) : option string :=
  match x with
  | Some s => if String.eqb s "" then y else x
  | None => y
  end.

(** [not x] on the same values. *)
Definition falsy (x : option string) : bool :=
  match x with
  | Some s => String.eqb s ""
  | None => true
  end.

(** [x in xs] for a list of strings. *)
Definition mem (x : string) (xs : list string) : bool :=
  existsb (String.eqb x) xs.

(** [sep.join(xs)]. *)
Definition join (sep : string) (xs : list string) : string :=
  String.concat sep xs.

(** *** Characters

    A string holds the UTF-8 bytes of a Python [str]; its characters are the
    code points the bytes encode.  A string whose bytes encode no sequence
    of code points stands for no Python string. *)

Definition continues (b : N) : bool := ((128 <=? b) && (b <=? 191))%N.

Fixpoint decode (bytes : list N) : option (list N) :=
  match bytes with
  | [] => Some []
  | b0 :: r0 =>
      if (b0 <? 128)%N then option_map (cons b0) (decode r0)
      else if ((194 <=? b0) && (b0 <=? 223))%N then
        match r0 with
        | b1 :: r1 =>
            if continues b1
            then option_map (cons ((b0 - 192) * 64 + (b1 - 128))%N) (decode r1)
            else None
        | _ => None
        end
      else if ((224 <=? b0) && (b0 <=? 239))%N then
        match r0 with
        | b1 :: b2 :: r2 =>
            if continues b1 && continues b2
            then option_map
                   (cons ((b0 - 224) * 4096 + (b1 - 128) * 64 + (b2 - 128))%N)
                   (decode r2)
            else None
        | _ => None
        end
      else if ((240 <=? b0) && (b0 <=? 244))%N then
        match r0 with
        | b1 :: b2 :: b3 :: r3 =>
            if continues b1 && continues b2 && continues b3
            then option_map
                   (cons ((b0 - 240) * 262144 + (b1 - 128) * 4096
                          + (b2 - 128) * 64 + (b3 - 128))%N)
                   (decode r3)
            else None
        | _ => None
        end
      else None
  end.

Definition code_points (s : string) : option (list N) :=
  decode (map N_of_ascii (list_ascii_of_string s)).

(** The characters with a decimal value (Unicode 660 characters in
    62 runs): within a run the values go 0 to 9 and start again. *)
Definition decimal_runs : list (N * N) :=
  [ (48, 57); (1632, 1641); (1776, 1785); (1984, 1993); (2406, 2415);
    (2534, 2543); (2662, 2671); (2790, 2799); (2918, 2927); (3046, 3055);
    (3174, 3183); (3302, 3311); (3430, 3439); (3558, 3567); (3664, 3673);
    (3792, 3801); (3872, 3881); (4160, 4169); (4240, 4249); (6112, 6121);
    (6160, 6169); (6470, 6479); (6608, 6617); (6784, 6793); (6800, 6809);
    (6992, 7001); (7088, 7097); (7232, 7241); (7248, 7257); (42528, 42537);
    (43216, 43225); (43264, 43273); (43472, 43481); (43504, 43513);
    (43600, 43609); (44016, 44025); (65296, 65305); (66720, 66729);
    (68912, 68921); (69734, 69743); (69872, 69881); (69942, 69951);
    (70096, 70105); (70384, 70393); (70736, 70745); (70864, 70873);
    (71248, 71257); (71360, 71369); (71472, 71481); (71904, 71913);
    (72016, 72025); (72784, 72793); (73040, 73049); (73120, 73129);
    (92768, 92777); (92864, 92873); (93008, 93017); (120782, 120831);
    (123200, 123209); (123632, 123641); (125264, 125273); (130032, 130041) ]%N.

(** The characters that are digits without a decimal value: superscripts,
    subscripts, circled and other digits. *)
Definition digit_runs : list (N * N) :=
  [ (178, 179); (185, 185); (4969, 4977); (6618, 6618); (8304, 8304);
    (8308, 8313); (8320, 8329); (9312, 9320); (9332, 9340); (9352, 9360);
    (9450, 9450); (9461, 9469); (9471, 9471); (10102, 10110);
    (10112, 10120); (10122, 10130); (68160, 68163); (69216, 69224);
    (69714, 69722); (127232, 127242) ]%N.

Definition in_run (c : N) (run : N * N) : bool :=
  ((fst run <=? c) && (c <=? snd run))%N.

(** The decimal value of a character, when it has one. *)
Definition decimal_value (c : N) : option Z :=
  match find (in_run c) decimal_runs with
  | Some run => Some (Z.of_N ((c - fst run) mod 10))
  | None => None
  end.

(** [c.isdigit()] for one character. *)
Definition is_digit (c : N) : bool :=
  existsb (in_run c) decimal_runs || existsb (in_run c) digit_runs.

(** [s.isdigit()]: at least one character, and digits only. *)
Definition isdigit (s : string) : bool :=
  match code_points s with
  | Some (c :: cs) => forallb is_digit (c :: cs)
  | _ => false
  end.

(** The decimal values of the leading characters that have one. *)
Fixpoint leading_decimals (cs : list N) : list Z :=
  match cs with
  | [] => []
  | c :: cs' =>
      match decimal_value c with
      | Some v => v :: leading_decimals cs'
      | None => []
      end
  end.

Definition max_str_digits : nat := 4300.

(** The first [n] characters of a string. *)
Fixpoint take_chars (n : nat) (s : string) : string :=
  match s with
  | EmptyString => EmptyString
  | String b s' =>
      if continues (N_of_ascii b) then String b (take_chars n s')
      else match n with
           | O => EmptyString
           | S n' => String b (take_chars n' s')
           end
  end.

(** The message of the [ValueError] of [int(s)] on a string of digits it
    cannot read: the string is quoted, and cut after 200 characters. *)
Definition invalid_literal (s : string) : string :=
  "invalid literal for int() with base 10: "
  ++ take_chars 200 ("'" ++ s ++ "'").

(** [int(s)] for a string of digits, as the engine calls it (no sign, no
    space, no underscore): the number the decimal values spell in base ten;
    [ValueError] beyond 4300 decimals, and when a character has no decimal
    value. *)
Definition int (s : string) : result Z :=
  match code_points s with
  | Some (c :: cs) =>
      let ds := leading_decimals (c :: cs) in
      if (max_str_digits <? List.length ds)%nat then
        Raise ("Exceeds the limit (4300 digits) for integer string conversion: "
               ++ "value has "
               ++ NilZero.string_of_uint (Nat.to_uint (List.length ds))
               ++ " digits; use sys.set_int_max_str_digits() "
               ++ "to increase the limit")
      else if (List.length ds =? List.length (c :: cs))%nat then
        Ok (fold_left (fun acc d => 10 * acc + d) ds 0)
      else Raise (invalid_literal s)
  | _ => Raise (invalid_literal s)
  end.

(** [s[i]] as a one-character string, on the ASCII strings the engine
    indexes. *)
Definition index (s : string) (i : nat) : string := substring i 1 s.

(** [s.replace('_', ' ')]. *)
Fixpoint replace_underscore (s : string) : string :=
  match s with
  | EmptyString => EmptyString
  | String c s' =>
      String (if Ascii.eqb c "_" then " "%char else c) (replace_underscore s')
  end.

(** [str(n)] for an integer. *)
Definition str_int (n : Z) : string := NilZero.string_of_int (Z.to_int n).

(** Thousands separators, working on the digits from the least significant. *)
Fixpoint group3 (rev_digits : list ascii) : list ascii :=
  match rev_digits with
  | a :: b :: c :: ((_ :: _) as rest) => a :: b :: c :: ","%char :: group3 rest
  | _ => rev_digits
  end.

Definition with_commas (digits : string) : string :=
  string_of_list_ascii (rev (group3 (rev (list_ascii_of_string digits)))).

(** [f"{n:,}"] for an integer. *)
Definition format_int_grouped (n : Z) : string :=
  (if n <? 0 then "-" else "") ++ with_commas (str_int (Z.abs n)).

(** The value [m * 2^e] in hundredths, rounded to nearest, ties to even: the
    correctly rounded decimal conversion of the [f] presentation type. *)
Definition hundredths (m : positive) (e : Z) : Z :=
  if 0 <=? e then Z.pos m * 2 ^ e * 100
  else
    let den := 2 ^ (- e) in
    let num := Z.pos m * 100 in
    let q := num / den in
    let r := num mod den in
    if 2 * r <? den then q
    else if den <? 2 * r then q + 1
    else if Z.even q then q else q + 1.

Definition two_digits (n : Z) : string :=
  (if n <? 10 then "0" else "") ++ str_int n.

Definition fixed2 (grouped : bool) (h : Z) : string :=
  let whole := str_int (h / 100) in
  (if grouped then with_commas whole else whole) ++ "." ++ two_digits (h mod 100).

Definition sign_text (plus negative : bool) : string :=
  if negative then "-" else if plus then "+" else "".

(** [f"{x:.2f}"] with the optional [+] and [,] flags. *)
Definition format_f2 (plus grouped : bool) (x : float) : string :=
  match Prim2SF x with
  | S754_nan => sign_text plus false ++ "nan"
  | S754_infinity s => sign_text plus s ++ "inf"
  | S754_zero s => sign_text plus s ++ "0.00"
  | S754_finite s m e => sign_text plus s ++ fixed2 grouped (hundredths m e)
  end.

(** [f"{x:,.2f}"] *)
Definition format_money : float -> string := format_f2 false true.
(** [f"{x:+.2f}"] *)
Definition format_signed : float -> string := format_f2 true false.

End Py.

Notation "x <- r ;; k" := (Py.bind r (fun x => k))
  (at level 61, r at next level, right associativity).

(* ================================================================== *)
(** ** pandas: float series, group-by, ordering, truncation *)
(* ================================================================== *)

Module Pandas.

Record calendar_date : Type := mkDate { d_year : Z; d_month : Z; d_day : Z }.

(** A cell of the [date] column as read from the file: a date, an empty
    cell (which [pd.to_datetime] turns into [NaT]), or a text it raises
    on. *)
Inductive date_cell : Type :=
| Parseable (d : calendar_date)
| Missing
| Unparseable (err : string).

(** A group label: a value of the column the frame was grouped by. *)
Inductive cell : Type :=
| CStr (s : string)
| CInt (n : Z)
| CFloat (x : float)
| CDate (d : calendar_date).

Definition date_eqb (a b : calendar_date) : bool :=
  (d_year a =? d_year b) && (d_month a =? d_month b) && (d_day a =? d_day b).

Definition date_leb (a b : calendar_date) : bool :=
  (d_year a <? d_year b)
  || ((d_year a =? d_year b)
      && ((d_month a <? d_month b)
          || ((d_month a =? d_month b) && (d_day a <=? d_day b)))).

(** A monthly period, [Period('2024-03', 'M')], as (year, month). *)
Definition period : Type := (Z * Z)%type.

Definition period_eqb (a b : period) : bool :=
  (fst a =? fst b) && (snd a =? snd b).

Definition period_leb (a b : period) : bool :=
  (fst a <? fst b) || ((fst a =? fst b) && (snd a <=? snd b)).

(** *** Float series *)

Definition isna (x : float) : bool := PrimFloat.is_nan x.
Definition notna (x : float) : bool := negb (PrimFloat.is_nan x).
Definition dropna (xs : list float) : list float := filter notna xs.

(** [b] may follow [a] in a series ordered by decreasing value: its value
    is at most that of [a], or is missing. *)
Definition desc {L : Type} (a b : L * float) : Prop :=
  (snd b <=? snd a)%float = true \/ isna (snd b) = true.

(** *** What is left to the library

    [series_sum] is [Series.sum()] and [series_mean] is [Series.mean()] of a
    float column, [group_sum] the sum [groupby(...).sum()] takes of the
    values of one group, in the order of the rows: the three skip missing
    values, and add in an order of their own.  [sort_values] is
    [Series.sort_values(ascending=False)], which leaves the order of equal
    values open.  [repr] is the [repr] of a string. *)
Record Library : Type := mkLibrary {
  series_sum : list float -> float;
  series_mean : list float -> float;
  group_sum : list float -> float;
  sort_values : forall L : Type, list (L * float) -> list (L * float);
  repr : string -> string
}.
Arguments sort_values l {L} s.

(** What is documented of them: the sum of no value is [0.0], the mean of
    no value is [nan], and a sorted series has the entries of the series,
    the values in decreasing order, the missing ones last. *)
Record Lawful (lib : Library) : Prop := mkLawful {
  series_sum_nil : series_sum lib [] = 0%float;
  series_mean_none : forall xs, dropna xs = [] -> series_mean lib xs = nan;
  sort_values_perm :
    forall (L : Type) (s : list (L * float)), Permutation (sort_values lib s) s;
  sort_values_sorted :
    forall (L : Type) (s : list (L * float)), Sorted desc (sort_values lib s)
}.

(** *** A reference library: additions from left to right, a stable sort *)

Definition nansum (xs : list float) : float :=
  fold_left PrimFloat.add (dropna xs) 0%float.

Definition float_of_nat (n : nat) : float :=
  PrimFloat.of_uint63 (Uint63.of_Z (Z.of_nat n)).

Definition nanmean (xs : list float) : float :=
  let n := List.length (dropna xs) in
  if (0 <? Z.of_nat n) then (nansum xs / float_of_nat n)%float else nan.

Section Series.
Context {L : Type}.

Fixpoint insert_desc (e : L * float) (l : list (L * float)) : list (L * float) :=
  match l with
  | [] => [e]
  | h :: t => if (snd h <=? snd e)%float then e :: l else h :: insert_desc e t
  end.

(** The present values in decreasing order, entries of equal value in their
    order of appearance, missing values last. *)
Definition sort_values_desc (s : list (L * float)) : list (L * float) :=
  fold_right insert_desc [] (filter (fun e => notna (snd e)) s)
  ++ filter (fun e => isna (snd e)) s.

(** [Series.head(n)]: the first [n] entries; for a negative [n], all but
    the last [-n]. *)
Definition head (n : Z) (s : list (L * float)) : list (L * float) :=
  if n <? 0 then firstn (List.length s - Z.to_nat (- n)) s
  else firstn (Z.to_nat n) s.

(** [enumerate(items, 1)] *)
Definition enumerate1 (s : list (L * float)) : list (Z * (L * float)) :=
  combine (map Z.of_nat (seq 1 (List.length s))) s.
End Series.

Definition double_quote : ascii := ascii_of_N 34.

Definition hex_digit (n : N) : ascii :=
  ascii_of_N (if (n <? 10)%N then 48 + n else 87 + n).

Definition backslash : ascii := ascii_of_N 92.

(** A backslash escape. *)
Definition escape (s : string) : string := String backslash s.

(** [repr] of one ASCII character inside the quotes [q]; the bytes of other
    characters are left as they are. *)
Definition repr_char (q : ascii) (c : ascii) : string :=
  let n := N_of_ascii c in
  if Ascii.eqb c backslash then escape (String backslash "")
  else if Ascii.eqb c q then escape (String q "")
  else if (n =? 10)%N then escape "n"
  else if (n =? 13)%N then escape "r"
  else if (n =? 9)%N then escape "t"
  else if (n <? 32)%N || (n =? 127)%N
  then escape ("x" ++ String (hex_digit (n / 16))
                             (String (hex_digit (n mod 16)) ""))
  else String c "".

Fixpoint has_char (c : ascii) (s : string) : bool :=
  match s with
  | EmptyString => false
  | String c' s' => Ascii.eqb c c' || has_char c s'
  end.

Fixpoint flat_chars (f : ascii -> string) (s : string) : string :=
  match s with
  | EmptyString => EmptyString
  | String c s' => f c ++ flat_chars f s'
  end.

(** [repr(s)] for a string of printable characters and ASCII controls:
    single quotes, or double quotes when the string has a single quote and
    no double one. *)
Definition ascii_repr (s : string) : string :=
  let q := if has_char "'"%char s && negb (has_char double_quote s)
           then double_quote else "'"%char in
  String q (flat_chars (repr_char q) s ++ String q "").

Definition reference : Library :=
  {| series_sum := nansum;
     series_mean := nanmean;
     group_sum := nansum;
     sort_values := @sort_values_desc;
     repr := ascii_repr |}.

(** *** Group-by *)

Section GroupBy.
Context {R K : Type}.
Variables (keqb kleb : K -> K -> bool).

(** The distinct keys, each at its first occurrence. *)
Fixpoint uniques (ks : list K) : list K :=
  match ks with
  | [] => []
  | k :: ks' => k :: filter (fun k' => negb (keqb k k')) (uniques ks')
  end.

Fixpoint insert_key (k : K) (l : list K) : list K :=
  match l with
  | [] => [k]
  | h :: t => if kleb k h then k :: l else h :: insert_key k t
  end.

Definition sort_keys (ks : list K) : list K := fold_right insert_key [] ks.

(** The keys present in a column; a row whose key is missing is dropped. *)
Definition present_keys (key : R -> option K) (rows : list R) : list K :=
  flat_map (fun r => match key r with Some k => [k] | None => [] end) rows.

Definition in_group (key : R -> option K) (k : K) (r : R) : bool :=
  match key r with
  | Some k' => keqb k k'
  | None => false
  end.

(** [df.groupby(key)[val].sum()]: one entry per distinct key, keys in
    increasing order, each with the sum the library takes of the values of
    its rows. *)
Definition groupby_sum (lib : Library) (key : R -> option K) (val : R -> float)
           (rows : list R) : list (K * float) :=
  map (fun k => (k, group_sum lib (map val (filter (in_group key k) rows))))
      (sort_keys (uniques (present_keys key rows))).

(** [Series.nunique()] *)
Definition nunique (key : R -> option K) (rows : list R) : Z :=
  Z.of_nat (List.length (uniques (present_keys key rows))).
End GroupBy.

(** [Series.reindex(labels)] on a series indexed by strings: the listed
    labels in the listed order, [nan] where the index has no such label. *)
Definition reindex (labels : list string) (s : list (string * float))
  : list (string * float) :=
  map (fun l =>
         (l, match find (fun e => String.eqb (fst e) l) s with
             | Some e => snd e
             | None => nan
             end))
      labels.

(** [label in series.index] *)
Definition in_index (l : string) (s : list (string * float)) : bool :=
  existsb (fun e => String.eqb (fst e) l) s.

End Pandas.

(* ================================================================== *)
(** ** The engine *)
(* ================================================================== *)

Import Py Pandas.

(** *** Data model *)

(** One row of the sales file; the columns are those the data generator
    writes.  A cell of text is [None] when the file leaves it empty. *)
Record Transaction : Type := mkTransaction {
  transaction_id : option string;
  date : date_cell;
  product : option string;
  region : option string;
  channel : option string;
  quantity : Z;
  unit_price : float;
  customer_id : option string;
  revenue : float;
  year : Z;
  month : Z;
  quarter : Z;
  month_name : option string
}.

Definition DataFrame : Type := list Transaction.

(** What a path of the file system holds: nothing, a file [pd.read_csv]
    raises on (with the text of the exception), or a table. *)
Inductive file : Type :=
| Absent
| Unreadable (err : string)
| Csv (rows : DataFrame).

Definition FileSystem : Type := string -> file.

(** The columns of the frame by name, with the type of their cells. *)
Inductive column_type : Type :=
| StrColumn (get : Transaction -> option string)
| IntColumn (get : Transaction -> Z)
| FloatColumn (get : Transaction -> float)
| DateColumn (get : Transaction -> date_cell).

Definition columns : list (string * column_type) :=
  [ ("transaction_id", StrColumn transaction_id);
    ("date", DateColumn date);
    ("product", StrColumn product);
    ("region", StrColumn region);
    ("channel", StrColumn channel);
    ("quantity", IntColumn quantity);
    ("unit_price", FloatColumn unit_price);
    ("customer_id", StrColumn customer_id);
    ("revenue", FloatColumn revenue);
    ("year", IntColumn year);
    ("month", IntColumn month);
    ("quarter", IntColumn quarter);
    ("month_name", StrColumn month_name) ].

Fixpoint lookup {V : Type} (k : string) (d : list (string * V)) : option V :=
  match d with
  | [] => None
  | (k', v) :: d' => if String.eqb k k' then Some v else lookup k d'
  end.

(** [pd.to_datetime(df['date'])]: raises on the first cell it cannot parse;
    an empty cell is no error. *)
Fixpoint to_datetime (df : DataFrame) : result DataFrame :=
  match df with
  | [] => Ok []
  | r :: df' =>
      match date r with
      | Unparseable err => Raise err
      | _ => rest <- to_datetime df' ;; Ok (r :: rest)
      end
  end.

(** [df['date'].dt.to_period('M')] on one row. *)
Definition to_period_M (r : Transaction) : option period :=
  match date r with
  | Parseable d => Some (d_year d, d_month d)
  | _ => None
  end.

Definition relabel {K : Type} (f : K -> cell) (s : list (K * float))
  : list (cell * float) :=
  map (fun e => (f (fst e), snd e)) s.

Definition float_key (get : Transaction -> float) (r : Transaction) : option float :=
  if isna (get r) then None else Some (get r).

Definition date_key (get : Transaction -> date_cell) (r : Transaction)
  : option calendar_date :=
  match get r with
  | Parseable d => Some d
  | _ => None
  end.

(** [df[column].nunique()] and the rest of the engine, over a library. *)
Section Engine.
Variable lib : Library.

(** [str(KeyError(name))] *)
Definition KeyError (name : string) : string := repr lib name.

(** [df[column]] where an arithmetic formula reads it: the float64 columns.
    The catalogue hands no other column to such a formula. *)
Definition float_series (name : string) : result (Transaction -> float) :=
  match lookup name columns with
  | Some (FloatColumn get) => Ok get
  | Some _ => Raise ("unsupported operand: " ++ name)
  | None => Raise (KeyError name)
  end.

(** [df.groupby(group_col)[column].sum()], labels as cells.  The group column
    is looked up before the summed one. *)
Definition groupby_column_sum (df : DataFrame) (group_col column : string)
  : result (list (cell * float)) :=
  match lookup group_col columns with
  | None => Raise (KeyError group_col)
  | Some kind =>
      val <- float_series column ;;
      Ok match kind with
         | StrColumn get =>
             relabel CStr (groupby_sum String.eqb String.leb lib get val df)
         | IntColumn get =>
             relabel CInt (groupby_sum Z.eqb Z.leb lib
                                       (fun r => Some (get r)) val df)
         | FloatColumn get =>
             relabel CFloat (groupby_sum PrimFloat.eqb PrimFloat.leb lib
                                         (float_key get) val df)
         | DateColumn get =>
             relabel CDate (groupby_sum date_eqb date_leb lib
                                        (date_key get) val df)
         end
  end.

(** [df[column].nunique()] *)
Definition column_nunique (df : DataFrame) (name : string) : result Z :=
  match lookup name columns with
  | None => Raise (KeyError name)
  | Some (StrColumn get) => Ok (nunique String.eqb get df)
  | Some (IntColumn get) => Ok (nunique Z.eqb (fun r => Some (get r)) df)
  | Some (FloatColumn get) => Ok (nunique PrimFloat.eqb (float_key get) df)
  | Some (DateColumn get) => Ok (nunique date_eqb (date_key get) df)
  end.

(** The same with the group column as the engine holds it, possibly [None]:
    [df.groupby(None)] raises. *)
Definition groupby_sum_of (df : DataFrame) (group_col : option string)
           (column : string) : result (list (cell * float)) :=
  match group_col with
  | None => Raise "You have to supply one of 'by' and 'level'"
  | Some g => groupby_column_sum df g column
  end.
End Engine.

(** [series.iloc[-i]] for [i = 1, 2, ...]; out of bounds raises. *)
Definition iloc_from_end {K : Type} (s : list (K * float)) (i : nat)
  : result float :=
  match nth_error (rev s) (Nat.pred i) with
  | Some e => Ok (snd e)
  | None => Raise "single positional indexer is out-of-bounds"
  end.

Fixpoint insert_index (e : period * float) (l : list (period * float))
  : list (period * float) :=
  match l with
  | [] => [e]
  | h :: t => if period_leb (fst e) (fst h) then e :: l else h :: insert_index e t
  end.

(** [series.sort_index()] on a series indexed by monthly periods. *)
Definition sort_index (s : list (period * float)) : list (period * float) :=
  fold_right insert_index [] s.

(** *** Metric catalogue *)

Module Metric.
Record definition : Type := mk {
  formula : string;
  column : string;
  group_by : option string;
  description : string
}.
End Metric.

Definition METRIC_DEFINITIONS : list (string * Metric.definition) :=
  [ ("total_revenue",
     Metric.mk "sum" "revenue" None "Sum of all revenue");
    ("average_order_value",
     Metric.mk "mean" "revenue" None "Average revenue per transaction");
    ("total_transactions",
     Metric.mk "count" "transaction_id" None "Total number of transactions");
    ("customer_count",
     Metric.mk "unique_count" "customer_id" None "Number of unique customers");
    ("top_products",
     Metric.mk "group_sum_ranked" "revenue" (Some "product")
               "Products ranked by revenue");
    ("top_regions",
     Metric.mk "group_sum_ranked" "revenue" (Some "region")
               "Regions ranked by revenue");
    ("revenue_by_channel",
     Metric.mk "group_sum" "revenue" (Some "channel")
               "Revenue by sales channel");
    ("monthly_revenue",
     Metric.mk "time_series" "revenue" (Some "month_name") "Revenue by month");
    ("growth_rate",
     Metric.mk "percentage_change" "revenue" None
               "Month-over-month growth rate") ].

(** [d.keys()], in insertion order. *)
Definition keys {V : Type} (d : list (string * V)) : list string := map fst d.

(** *** Calculation results *)

(** What [calculate] returns.  Each constructor stands for one of the
    formatted strings the source builds and carries the values interpolated
    into it; [render] below spells the string out. *)
Inductive report : Type :=
| Failure (message : string)
| Currency (metric_name : string) (result : float)
| Transactions (metric_name : string) (result : Z)
| Unique (metric_name : string) (result : Z) (what : string)
| Ranking (metric_name : string) (limit : Z) (items : list (cell * float))
| Listing (metric_name : string) (items : list (cell * float))
| Growth (metric_name : string) (latest previous growth : float)
         (positive : bool).

Definition is_failure (r : report) : bool :=
  match r with
  | Failure _ => true
  | _ => false
  end.

(** *** Time filter *)

Definition month_order : list string :=
  [ "January"; "February"; "March"; "April"; "May"; "June";
    "July"; "August"; "September"; "October"; "November"; "December" ].

Definition months : list string := month_order.

(** [df['month_name'] == name] on one row. *)
Definition month_name_is (name : string) (r : Transaction) : bool :=
  match month_name r with
  | Some m => String.eqb m name
  | None => false
  end.

Definition _filter_by_time (df : DataFrame) (time_period : string)
  : result DataFrame :=
  (* Quarter filters *)
  if mem time_period ["Q1"; "Q2"; "Q3"; "Q4"] then
    quarter_num <- int (index time_period 1) ;;
    Ok (filter (fun r => quarter r =? quarter_num) df)
  (* Month filters *)
  else if mem time_period months then
    Ok (filter (month_name_is time_period) df)
  (* Year filter *)
  else if isdigit time_period then
    year_num <- int time_period ;;
    Ok (filter (fun r => year r =? year_num) df)
  else Ok df.

(** The status markers, as the source file spells them. *)
Definition CROSS : string := "‚ùå".
Definition CHECK : string := "‚úÖ".
Definition TREND_UP : string := "üìà".
Definition TREND_DOWN : string := "üìâ".

Definition NL : string := String (ascii_of_nat 10) EmptyString.

(** *** Aggregation strategies

    The branches of the dispatch in [calculate], one definition per formula,
    each over the variables the branch reads. *)

Section Calculation.
Variable lib : Library.

(** [formula == 'group_sum_ranked'] *)
Definition group_sum_ranked (metric_name : string) (metric_def : Metric.definition)
           (df : DataFrame) (column : string) (group_by : option string)
           (limit : Z) : result report :=
  let group_col := or_ group_by (Metric.group_by metric_def) in
  if falsy group_col then Ok (Failure "This metric requires a group_by parameter")
  else
    grouped <- groupby_sum_of lib df group_col column ;;
    let result := head limit (sort_values lib grouped) in
    Ok (Ranking metric_name limit result).

(** [formula == 'group_sum'] *)
Definition group_sum_listed (metric_name : string) (metric_def : Metric.definition)
           (df : DataFrame) (column : string) (group_by : option string)
  : result report :=
  let group_col := or_ group_by (Metric.group_by metric_def) in
  grouped <- groupby_sum_of lib df group_col column ;;
  let result := sort_values lib grouped in
  Ok (Listing metric_name result).

(** [formula == 'time_series'] *)
Definition time_series (metric_name : string) (df : DataFrame) (column : string)
  : result report :=
  val <- float_series lib column ;;
  let monthly := groupby_sum String.eqb String.leb lib month_name val df in
  let monthly :=
    reindex (filter (fun m => in_index m monthly) month_order) monthly in
  Ok (Listing metric_name (relabel CStr monthly)).

(** [formula == 'percentage_change'] *)
Definition percentage_change (metric_name : string) (df : DataFrame)
           (column : string) : result report :=
  val <- float_series lib column ;;
  let monthly := groupby_sum period_eqb period_leb lib to_period_M val df in
  let monthly := sort_index monthly in
  if Z.of_nat (List.length monthly) <? 2
  then Ok (Failure "Need at least 2 months for growth rate")
  else
    latest <- iloc_from_end monthly 1 ;;
    previous <- iloc_from_end monthly 2 ;;
    let growth := ((latest - previous) / previous * 100)%float in
    Ok (Growth metric_name latest previous growth (0 <? growth)%float).

(** *** The calculation *)

(** The dispatch on the formula of the metric ("Calculate based on
    formula"), over the frame left by the time filter. *)
Definition apply_formula (metric_name : string) (metric_def : Metric.definition)
           (df : DataFrame) (group_by : option string) (limit : Z)
  : result report :=
  let formula := Metric.formula metric_def in
  let column := Metric.column metric_def in
  if String.eqb formula "sum" then
    val <- float_series lib column ;;
    Ok (Currency metric_name (series_sum lib (map val df)))
  else if String.eqb formula "mean" then
    val <- float_series lib column ;;
    Ok (Currency metric_name (series_mean lib (map val df)))
  else if String.eqb formula "count" then
    Ok (Transactions metric_name (Z.of_nat (List.length df)))
  else if String.eqb formula "unique_count" then
    n <- column_nunique lib df column ;;
    Ok (Unique metric_name n (replace_underscore column))
  else if String.eqb formula "group_sum_ranked" then
    group_sum_ranked metric_name metric_def df column group_by limit
  else if String.eqb formula "group_sum" then
    group_sum_listed metric_name metric_def df column group_by
  else if String.eqb formula "time_series" then
    time_series metric_name df column
  else if String.eqb formula "percentage_change" then
    percentage_change metric_name df column
  else Ok (Failure ("Unknown formula: " ++ formula)).

(** [d[k]] *)
Definition getitem {V : Type} (d : list (string * V)) (k : string) : result V :=
  match lookup k d with
  | Some v => Ok v
  | None => Raise (KeyError lib k)
  end.

(** The body of the [try] block of [calculate]. *)
Definition calculate_body (fs : FileSystem)
           (metric_name dataframe_path time_period : string)
           (group_by : option string) (limit : Z) : result report :=
  (* Check if metric exists *)
  if negb (mem metric_name (keys METRIC_DEFINITIONS)) then
    let available := join ", " (keys METRIC_DEFINITIONS) in
    Ok (Failure ("Metric '" ++ metric_name ++ "' not found." ++ NL ++ NL
                 ++ "Available: " ++ available))
  else
  (* Load data *)
  match fs dataframe_path with
  | Absent => Ok (Failure ("Data file not found: " ++ dataframe_path))
  | Unreadable err => Raise err
  | Csv rows =>
      df <- to_datetime rows ;;
      (* Apply time filter *)
      let filtered := negb (String.eqb time_period "all") in
      df <- (if filtered then _filter_by_time df time_period else Ok df) ;;
      if filtered && (Z.of_nat (List.length df) =? 0) then
        Ok (Failure ("No data for time period: " ++ time_period))
      else
      (* Get metric configuration *)
      metric_def <- getitem METRIC_DEFINITIONS metric_name ;;
      apply_formula metric_name metric_def df group_by limit
  end.

(** [calculate]: the body under [except Exception as e]. *)
Definition calculate (fs : FileSystem)
           (metric_name dataframe_path time_period : string)
           (group_by : option string) (limit : Z) : report :=
  match calculate_body fs metric_name dataframe_path time_period group_by limit with
  | Ok r => r
  | Raise e => Failure ("Error calculating metric: " ++ e)
  end.
End Calculation.

(** *** The text of a result *)

Definition str_date (d : calendar_date) : string :=
  str_int (d_year d) ++ "-" ++ two_digits (d_month d) ++ "-"
  ++ two_digits (d_day d) ++ " 00:00:00".

Section Rendering.
(** [str] of a float group label, which the engine leaves to the runtime. *)
Variable float_repr : float -> string.

Definition str_label (c : cell) : string :=
  match c with
  | CStr s => s
  | CInt n => str_int n
  | CFloat x => float_repr x
  | CDate d => str_date d
  end.

Definition ranking_line (e : Z * (cell * float)) : string :=
  str_int (fst e) ++ ". " ++ str_label (fst (snd e)) ++ ": $"
  ++ format_money (snd (snd e)) ++ NL.

Definition listing_line (e : cell * float) : string :=
  "- " ++ str_label (fst e) ++ ": $" ++ format_money (snd e) ++ NL.

(** The string [calculate] returns. *)
Definition render (r : report) : string :=
  match r with
  | Failure message => CROSS ++ " " ++ message
  | Currency metric_name result =>
      CHECK ++ " " ++ metric_name ++ ": $" ++ format_money result
  | Transactions metric_name result =>
      CHECK ++ " " ++ metric_name ++ ": " ++ format_int_grouped result
      ++ " transactions"
  | Unique metric_name result what =>
      CHECK ++ " " ++ metric_name ++ ": " ++ format_int_grouped result
      ++ " unique " ++ what
  | Ranking metric_name limit items =>
      CHECK ++ " " ++ metric_name ++ " (Top " ++ str_int limit ++ "):" ++ NL ++ NL
      ++ String.concat "" (map ranking_line (enumerate1 items))
  | Listing metric_name items =>
      CHECK ++ " " ++ metric_name ++ ":" ++ NL ++ NL
      ++ String.concat "" (map listing_line items)
  | Growth metric_name latest previous growth positive =>
      let output := CHECK ++ " " ++ metric_name ++ ":" ++ NL ++ NL in
      let output := output ++ "Latest month: $" ++ format_money latest ++ NL in
      let output :=
        output ++ "Previous month: $" ++ format_money previous ++ NL in
      let output := output ++ "Growth rate: " ++ format_signed growth ++ "%" ++ NL in
      if positive then output ++ NL ++ TREND_UP ++ " Positive growth"
      else output ++ NL ++ TREND_DOWN ++ " Negative growth"
  end.
End Rendering.

(** [list_metrics] *)
Definition list_metrics : string :=
  fold_left (fun output e =>
               output ++ "- " ++ fst e ++ ": " ++ Metric.description (snd e) ++ NL)
            METRIC_DEFINITIONS ("Available Metrics:" ++ NL ++ NL).


(** *** Vocabulary of the statements *)

(** Neither a finite number nor a zero: an infinity or not-a-number. *)
Definition non_finite (x : float) : bool :=
  match Prim2SF x with
  | S754_infinity _ | S754_nan => true
  | _ => false
  end.

(** [s] is [l] with some elements left out. *)
Inductive subsequence {A : Type} : list A -> list A -> Prop :=
| subsequence_nil : subsequence [] []
| subsequence_keep (x : A) (s l : list A) :
    subsequence s l -> subsequence (x :: s) (x :: l)
| subsequence_skip (x : A) (s l : list A) :
    subsequence s l -> subsequence s (x :: l).

(** The frame the formula of a metric is applied to: the table at the path,
    its dates parsed, narrowed to the period; none when the file is missing
    or unreadable, a date does not parse, the filter raises, or a period
    other than ["all"] leaves no row. *)
Definition frame (fs : FileSystem) (dataframe_path time_period : string)
  : option DataFrame :=
  match fs dataframe_path with
  | Csv rows =>
      match to_datetime rows with
      | Ok df =>
          if String.eqb time_period "all" then Some df
          else match _filter_by_time df time_period with
               | Ok (r :: df') => Some (r :: df')
               | _ => None
               end
      | Raise _ => None
      end
  | _ => None
  end.

(** The rows of a month, by name, and their total. *)
Definition in_month (m : string) (r : Transaction) : bool :=
  match month_name r with
  | Some name => String.eqb m name
  | None => false
  end.

Definition month_total (lib : Library) (m : string) (df : DataFrame) : float :=
  group_sum lib (map revenue (filter (in_month m) df)).

(** The calendar months that have a row, in calendar order. *)
Definition months_present (df : DataFrame) : list string :=
  filter (fun m => existsb (in_month m) df) month_order.



(** [p] is strictly before [q]. *)
Definition period_lt (p q : period) : Prop :=
  fst p < fst q \/ (fst p = fst q /\ snd p < snd q).

(** The growth the engine reports between two period totals. *)
Definition growth_of (latest previous : float) : float :=
  ((latest - previous) / previous * 100)%float.

(** [needle] occurs in [s]. *)
Definition contains (needle s : string) : Prop :=
  exists pre post, s = pre ++ needle ++ post.

(** The date of the row is one [pd.to_datetime] accepts: a date, or an
    empty cell. *)
Definition parses (r : Transaction) : Prop :=
  match date r with
  | Unparseable _ => False
  | _ => True
  end.

(** The period totals of a frame, in chronological order. *)
Definition period_sums (lib : Library) (df : DataFrame) : list (period * float) :=
  groupby_sum period_eqb period_leb lib to_period_M revenue df.


(** The closing line of a growth report. *)
Definition annotation (positive : bool) : string :=
  if positive then TREND_UP ++ " Positive growth"
  else TREND_DOWN ++ " Negative growth".

(** *** Sample data *)

(** A sale dated [d], its calendar columns derived from the date as the data
    generator derives them. *)
Definition sale (id : string) (d : calendar_date) (product region channel : string)
           (customer : string) (revenue : float) : Transaction :=
  {| transaction_id := Some id; date := Parseable d;
     product := Some product; region := Some region; channel := Some channel;
     quantity := 1; unit_price := revenue;
     customer_id := Some customer; revenue := revenue;
     year := d_year d; month := d_month d;
     quarter := (d_month d + 2) / 3;
     month_name := Some (nth (Z.to_nat (d_month d - 1)) month_order "") |}.

Definition sample_sales : DataFrame :=
  [ sale "TXN0001" (mkDate 2024 1 5) "Laptop" "North" "Online" "CUST1001" 60;
    sale "TXN0002" (mkDate 2024 1 19) "Mouse" "South" "Retail" "CUST1002" 40;
    sale "TXN0003" (mkDate 2024 2 2) "Laptop" "South" "Online" "CUST1001" 120;
    sale "TXN0004" (mkDate 2024 2 23) "Mouse" "North" "Partner" "CUST1003" 30 ].

(** January sums to zero, February to fifty. *)
Definition flat_start : DataFrame :=
  [ sale "TXN0001" (mkDate 2024 1 5) "Laptop" "North" "Online" "CUST1001" 0;
    sale "TXN0002" (mkDate 2024 2 2) "Laptop" "South" "Online" "CUST1001" 50 ].

(** The same month name in two years. *)
Definition two_januaries : DataFrame :=
  [ sale "TXN0001" (mkDate 2023 1 9) "Mouse" "South" "Retail" "CUST1002" 150;
    sale "TXN0002" (mkDate 2024 1 5) "Laptop" "North" "Online" "CUST1001" 100 ].

(** Two products with the same total. *)
Definition level_products : DataFrame :=
  [ sale "TXN0001" (mkDate 2024 3 1) "Mouse" "South" "Retail" "CUST1002" 75;
    sale "TXN0002" (mkDate 2024 3 2) "Laptop" "North" "Online" "CUST1001" 75;
    sale "TXN0003" (mkDate 2024 3 3) "Monitor" "North" "Online" "CUST1001" 20 ].

Definition undated : DataFrame :=
  [ {| transaction_id := Some "TXN0001";
       date := Unparseable "Unknown datetime string format";
       product := Some "Mouse"; region := Some "South";
       channel := Some "Retail";
       quantity := 1; unit_price := 75; customer_id := Some "CUST1002";
       revenue := 75; year := 2024; month := 3; quarter := 1;
       month_name := Some "March" |} ].

(** A row whose date cell, customer and product are empty, after a complete
    one. *)
Definition blank_cells : DataFrame :=
  [ sale "TXN0001" (mkDate 2024 3 1) "Mouse" "South" "Retail" "CUST1002" 75;
    {| transaction_id := Some "TXN0002"; date := Missing;
       product := None; region := Some "North"; channel := Some "Online";
       quantity := 1; unit_price := 20; customer_id := None;
       revenue := 20; year := 2024; month := 3; quarter := 1;
       month_name := Some "March" |} ].

(** Two months of the same total. *)
Definition steady_sales : DataFrame :=
  [ sale "TXN0001" (mkDate 2024 1 5) "Laptop" "North" "Online" "CUST1001" 80;
    sale "TXN0002" (mkDate 2024 2 2) "Laptop" "South" "Online" "CUST1001" 80 ].

Definition sample_files : FileSystem :=
  fun path =>
    if String.eqb path "data/sample_sales_data.csv" then Csv sample_sales
    else if String.eqb path "data/flat_start.csv" then Csv flat_start
    else if String.eqb path "data/two_januaries.csv" then Csv two_januaries
    else if String.eqb path "data/level_products.csv" then Csv level_products
    else if String.eqb path "data/undated.csv" then Csv undated
    else if String.eqb path "data/steady.csv" then Csv steady_sales
    else if String.eqb path "data/blank_cells.csv" then Csv blank_cells
    else if String.eqb path "data/header_only.csv" then Csv []
    else if String.eqb path "data/zero_bytes.csv"
         then Unreadable "No columns to parse from file"
    else Absent.

(** A stand-in for the runtime's [str] of a float label, for examples that
    have none. *)
Definition no_float_labels (x : float) : string := "".

(* ================================================================== *)
(** ** The keyword router of the assistant *)
(* ================================================================== *)

(** [c.lower()] on the ASCII letters. *)
Definition lower_char (c : ascii) : ascii :=
  let n := N_of_ascii c in
  if (65 <=? n)%N && (n <=? 90)%N then ascii_of_N (n + 32) else c.

(** [s.lower()] *)
Fixpoint lower (s : string) : string :=
  match s with
  | EmptyString => EmptyString
  | String c s' => String (lower_char c) (lower s')
  end.

(** [needle in s] for strings: [needle] occurs in [s] at some position. *)
Fixpoint str_in (needle s : string) : bool :=
  if prefix needle s then true
  else match s with
       | EmptyString => false
       | String _ s' => str_in needle s'
       end.

(** [BIQueryAssistant._execute_metrics]: the calculations a question asks
    for, by its keywords, each with the defaults of [calculate] for the
    arguments it does not pass, joined by a blank line; [None] when no
    keyword matches. *)
Definition _execute_metrics (lib : Library) (fs : FileSystem)
           (float_repr : float -> string) (question : string) : option string :=
  let calculate_ (metric_name time_period : string) (limit : Z) : string :=
    render float_repr
           (calculate lib fs metric_name "data/sample_sales_data.csv"
                      time_period None limit) in
  let question_lower := lower question in
  let results : list string := [] in
  (* Simple keyword matching to demonstrate tool *)
  let results :=
    if str_in "revenue" question_lower && str_in "total" question_lower
    then (results ++ [calculate_ "total_revenue" "all" 5])%list else results in
  let results :=
    if str_in "top" question_lower && str_in "product" question_lower
    then
      let limit :=
        if str_in "top 10" question_lower || str_in "top ten" question_lower
        then 10 else 5 in
      (results ++ [calculate_ "top_products" "all" limit])%list
    else results in
  let results :=
    if str_in "growth" question_lower
    then (results ++ [calculate_ "growth_rate" "all" 5])%list else results in
  let results :=
    if str_in "customer" question_lower
    then (results ++ [calculate_ "customer_count" "all" 5])%list else results in
  let results :=
    if str_in "region" question_lower && str_in "top" question_lower
    then (results ++ [calculate_ "top_regions" "all" 5])%list else results in
  let results :=
    if str_in "q1" question_lower || str_in "quarter 1" question_lower
    then (results ++ [calculate_ "total_revenue" "Q1" 5])%list else results in
  match results with
  | [] => None
  | _ :: _ => Some (join (NL ++ NL) results)
  end.

(* ================================================================== *)
(** ** The calendar columns of the data generator *)
(* ================================================================== *)

(** [date.strftime('%B')], in the default (C) locale. *)
Definition strftime_B (d : calendar_date) : string :=
  match d_month d with
  | 1 => "January" | 2 => "February" | 3 => "March" | 4 => "April"
  | 5 => "May" | 6 => "June" | 7 => "July" | 8 => "August"
  | 9 => "September" | 10 => "October" | 11 => "November" | 12 => "December"
  | _ => ""
  end.

(** [date.quarter] *)
Definition dt_quarter (d : calendar_date) : Z := (d_month d - 1) / 3 + 1.

(** A row as [generate_data.py] completes it ("Add useful columns"): the
    year, month, quarter and month name are those of its date. *)
Definition add_useful_columns (id : string) (d : calendar_date)
           (product region channel : string) (quantity : Z)
           (unit_price : float) (customer : string) (revenue : float)
  : Transaction :=
  {| transaction_id := Some id; date := Parseable d;
     product := Some product; region := Some region; channel := Some channel;
     quantity := quantity; unit_price := unit_price;
     customer_id := Some customer; revenue := revenue;
     year := d_year d;
     month := d_month d;
     quarter := dt_quarter d;
     month_name := Some (strftime_B d) |}.

(** The calendar columns of a row agree with its date, a date of the
    calendar. *)
Definition calendar_consistent (r : Transaction) : Prop :=
  exists d, date r = Parseable d
            /\ 1 <= d_month d <= 12
            /\ year r = d_year d
            /\ month r = d_month d
            /\ quarter r = dt_quarter d
            /\ month_name r = Some (strftime_B d).

(** The month of the date of a row, [0] when it has none. *)
Definition month_of_date (r : Transaction) : Z :=
  match date r with
  | Parseable d => d_month d
  | _ => 0
  end.

Definition year_of_date (r : Transaction) : Z :=
  match date r with
  | Parseable d => d_year d
  | _ => 0
  end.

(** The message of the first date cell that does not parse. *)
Fixpoint first_unparseable (df : DataFrame) : option string :=
  match df with
  | [] => None
  | r :: df' =>
      match date r with
      | Unparseable err => Some err
      | _ => first_unparseable df'
      end
  end.

(** The period is none of those the time filter knows. *)
Definition unrecognised (time_period : string) : Prop :=
  time_period <> "all"
  /\ ~ In time_period ["Q1"; "Q2"; "Q3"; "Q4"]
  /\ ~ In time_period month_order
  /\ isdigit time_period = false.

(** Two results rank the same groups, or fail alike. *)
Definition same_entries (a b : report) : Prop :=
  match a, b with
  | Ranking _ la ia, Ranking _ lb ib => la = lb /\ ia = ib
  | Failure ma, Failure mb => ma = mb
  | _, _ => False
  end.

(** The test a period puts on one row, when reading the period does not
    raise. *)
Definition period_test (time_period : string) : result (Transaction -> bool) :=
  if mem time_period ["Q1"; "Q2"; "Q3"; "Q4"]
  then q <- int (index time_period 1) ;; Ok (fun r => quarter r =? q)
  else if mem time_period months
  then Ok (month_name_is time_period)
  else if isdigit time_period
  then y <- int time_period ;; Ok (fun r => year r =? y)
  else Ok (fun _ => true).

(** The time filter applied a second time, to what the first leaves. *)
Definition filter_twice (df : DataFrame) (first second : string)
  : result DataFrame :=
  df' <- _filter_by_time df first ;; _filter_by_time df' second.

(** A result of the calculation begins with one of the two status markers:
    the cross of a failure or the check of a success. *)
Definition marked (float_repr : float -> string) (r : report) : Prop :=
  exists text,
    render float_repr r
    = (if is_failure r then CROSS else CHECK) ++ " " ++ text.

(* ================================================================== *)
(** * Properties *)
(* ================================================================== *)

(** ** Binary64 comparison and arithmetic *)

Section FloatFacts.
Local Open Scope float_scope.

Lemma SFcompare_antisym (x y : spec_float) (c : comparison) :
  SFcompare x y = Some c -> SFcompare y x = Some (CompOpp c).
Proof.
  destruct x as [sx|sx| |sx mx ex], y as [sy|sy| |sy my ey]; simpl;
    try discriminate;
    try (intros H; injection H as <-; destruct sx; try destruct sy; reflexivity).
  intros H; injection H as <-.
  destruct sx, sy; try reflexivity;
    rewrite (Z.compare_antisym ex ey);
    destruct (ex ?= ey)%Z eqn:E; simpl; try reflexivity; f_equal.
  - rewrite CompOpp_involutive. exact (eq_sym (ZC4 mx my)).
  - exact (ZC4 my mx).
Qed.

(** Two floats compare equal when they are the same float or both zeros. *)
Lemma SFcompare_Eq_inv (x y : spec_float) :
  SFcompare x y = Some Eq ->
  x = y \/ (exists sx sy, x = S754_zero sx /\ y = S754_zero sy).
Proof.
  destruct x as [sx|sx| |sx mx ex], y as [sy|sy| |sy my ey]; simpl;
    try discriminate.
  - intros _. right. now exists sx, sy.
  - destruct sy; discriminate.
  - destruct sy; discriminate.
  - destruct sx; discriminate.
  - destruct sx, sy; try discriminate; now left.
  - destruct sx; discriminate.
  - destruct sx; discriminate.
  - destruct sy; discriminate.
  - intros H. left.
    destruct sx, sy; try discriminate;
      destruct (ex ?= ey)%Z eqn:E; try discriminate;
      apply Z.compare_eq in E; subst ey;
      injection H as H.
    + apply (f_equal CompOpp) in H. rewrite CompOpp_involutive in H. simpl in H.
      apply Pcompare_Eq_eq in H. now subst.
    + apply Pcompare_Eq_eq in H. now subst.
Qed.

Lemma SFcompare_defined (x y : spec_float) :
  x <> S754_nan -> y <> S754_nan -> exists c, SFcompare x y = Some c.
Proof.
  destruct x, y; simpl; intros Hx Hy; try congruence; eauto.
Qed.

Lemma notna_spec (x : float) : notna x = true <-> Prim2SF x <> S754_nan.
Proof.
  unfold notna, is_nan. rewrite negb_involutive, FloatAxioms.eqb_spec. unfold SFeqb.
  destruct (Prim2SF x) as [s|s| |s m e] eqn:E; simpl.
  - split; [discriminate | reflexivity].
  - split; [discriminate | destruct s; reflexivity].
  - split; [discriminate | congruence].
  - split; [discriminate | intros _].
    destruct s; rewrite Z.compare_refl, Pos.compare_cont_refl; reflexivity.
Qed.

Lemma isna_notna (x : float) : isna x = negb (notna x).
Proof. unfold isna, notna. now rewrite negb_involutive. Qed.

Lemma ltb_leb (x y : float) : (x <? y) = true -> (x <=? y) = true.
Proof.
  rewrite FloatAxioms.ltb_spec, FloatAxioms.leb_spec. unfold SFltb, SFleb.
  destruct (SFcompare (Prim2SF x) (Prim2SF y)) as [[]|]; congruence.
Qed.

Lemma eqb_leb (x y : float) : (x =? y) = true -> (x <=? y) = true.
Proof.
  rewrite FloatAxioms.eqb_spec, FloatAxioms.leb_spec. unfold SFeqb, SFleb.
  destruct (SFcompare (Prim2SF x) (Prim2SF y)) as [[]|]; congruence.
Qed.

Lemma leb_not_ltb (x y : float) : (y <=? x) = true -> (x <? y) = false.
Proof.
  rewrite FloatAxioms.ltb_spec, FloatAxioms.leb_spec. unfold SFltb, SFleb.
  destruct (SFcompare (Prim2SF x) (Prim2SF y)) as [c|] eqn:E; [|reflexivity].
  rewrite (SFcompare_antisym _ _ _ E). destruct c; simpl; congruence.
Qed.

Lemma leb_total (x y : float) :
  notna x = true -> notna y = true -> (x <=? y) = false -> (y <=? x) = true.
Proof.
  rewrite !notna_spec, !FloatAxioms.leb_spec. unfold SFleb. intros Hx Hy.
  destruct (SFcompare_defined _ _ Hx Hy) as [c E]. rewrite E.
  rewrite (SFcompare_antisym _ _ _ E). destruct c; simpl; congruence.
Qed.

Lemma eqb_trans_leb (x y v : float) :
  (x =? v) = true -> (y =? v) = true -> (x <=? y) = true.
Proof.
  rewrite !FloatAxioms.eqb_spec, FloatAxioms.leb_spec. unfold SFeqb, SFleb.
  destruct (SFcompare (Prim2SF x) (Prim2SF v)) as [[]|] eqn:Ex; try discriminate.
  destruct (SFcompare (Prim2SF y) (Prim2SF v)) as [[]|] eqn:Ey; try discriminate.
  intros _ _.
  apply SFcompare_antisym in Ey. simpl in Ey.
  destruct (SFcompare_Eq_inv _ _ Ex) as [Hx | (sx & sv & Hx & Hv)];
    destruct (SFcompare_Eq_inv _ _ Ey) as [Hy | (sv' & sy & Hv' & Hy)].
  - rewrite <- Hy, Ex. reflexivity.
  - rewrite Hx, Hv', Hy. reflexivity.
  - rewrite Hx, <- Hy, Hv. reflexivity.
  - rewrite Hx, Hy. reflexivity.
Qed.

(** A float that compares equal to [0.0] is a zero, of either sign. *)
Lemma eqb_zero_inv (p : float) :
  (p =? 0) = true -> exists s, Prim2SF p = S754_zero s.
Proof.
  rewrite FloatAxioms.eqb_spec. unfold SFeqb.
  destruct (SFcompare (Prim2SF p) (Prim2SF 0)) as [[]|] eqn:E; try discriminate.
  intros _. destruct (SFcompare_Eq_inv _ _ E) as [H | (sx & _ & H & _)].
  - exists false. exact H.
  - now exists sx.
Qed.

Lemma zero_eqb (p : float) (s : bool) :
  Prim2SF p = S754_zero s -> (p =? 0) = true.
Proof. intros H. rewrite FloatAxioms.eqb_spec, H. reflexivity. Qed.

(** Dividing by a zero never gives a finite quotient. *)
Lemma growth_of_zero_previous (latest previous : float) :
  (previous =? 0) = true ->
  non_finite ((latest - previous) / previous * 100) = true.
Proof.
  intros H. destruct (eqb_zero_inv _ H) as [s Hs].
  unfold non_finite. rewrite FloatAxioms.mul_spec, FloatAxioms.div_spec, Hs.
  destruct (Prim2SF (latest - previous)) as [s'|s'| |s' m e];
    destruct s; try destruct s'; reflexivity.
Qed.

Lemma non_finite_text (x : float) :
  non_finite x = true ->
  format_signed x = "+inf"%string \/ format_signed x = "-inf"%string
  \/ format_signed x = "+nan"%string.
Proof.
  unfold non_finite, format_signed, format_f2.
  destruct (Prim2SF x) as [s|s| |s m e]; try discriminate; intros _.
  - destruct s; [right; left | left]; reflexivity.
  - right; right; reflexivity.
Qed.

Lemma non_finite_not_zero (x : float) :
  non_finite x = true -> (x =? 0) = false.
Proof.
  unfold non_finite. rewrite FloatAxioms.eqb_spec.
  destruct (Prim2SF x) as [s|s| |s m e]; try discriminate; intros _.
  - destruct s; reflexivity.
  - reflexivity.
Qed.

(** Equal period sums never give a growth above zero. *)
Lemma growth_of_equal_periods (latest previous : float) :
  (latest =? previous) = true ->
  (0 <? (latest - previous) / previous * 100) = false.
Proof.
  rewrite FloatAxioms.eqb_spec, FloatAxioms.ltb_spec, FloatAxioms.mul_spec, FloatAxioms.div_spec, FloatAxioms.sub_spec. unfold SFeqb.
  destruct (SFcompare (Prim2SF latest) (Prim2SF previous)) as [[]|] eqn:E;
    try discriminate.
  intros _. destruct (SFcompare_Eq_inv _ _ E) as [H | (sx & sy & Hx & Hy)].
  - rewrite H. destruct (Prim2SF previous) as [s|s| |s m e].
    + destruct s; reflexivity.
    + destruct s; reflexivity.
    + reflexivity.
    + unfold SF64sub, SFsub. rewrite Z.sub_diag. simpl binary_normalize.
      destruct s; reflexivity.
  - rewrite Hx, Hy. destruct sx, sy; reflexivity.
Qed.

Lemma zero_growth_not_positive (growth : float) :
  (growth =? 0) = true -> (0 <? growth) = false.
Proof. intros H. apply leb_not_ltb, eqb_leb, H. Qed.

End FloatFacts.

(** ** Lists *)

Lemma filter_subsequence {A : Type} (f : A -> bool) (l : list A) :
  subsequence (filter f l) l.
Proof.
  induction l as [|x l IH]; simpl.
  - constructor.
  - destruct (f x); now constructor.
Qed.

Lemma Sorted_app {A : Type} (R : A -> A -> Prop) (l1 l2 : list A) :
  Sorted R l1 -> Sorted R l2 -> (forall a b, In b l2 -> R a b) ->
  Sorted R (l1 ++ l2).
Proof.
  intros H1 H2 Hall. induction H1 as [|a l1 Hs IH Hd]; simpl; [exact H2|].
  constructor; [exact IH|].
  destruct Hd as [|b l1' Hab]; simpl.
  - destruct l2 as [|b l2]; constructor. apply Hall. now left.
  - now constructor.
Qed.

Lemma Sorted_firstn {A : Type} (R : A -> A -> Prop) (n : nat) (l : list A) :
  Sorted R l -> Sorted R (firstn n l).
Proof.
  revert l. induction n as [|n IH]; intros l Hs; simpl; [constructor|].
  destruct Hs as [|a l Hs Hd]; [constructor|].
  constructor; [now apply IH|].
  destruct Hd as [|b l' Hab]; destruct n; simpl; constructor. exact Hab.
Qed.

Lemma Sorted_NoDup_strict {A : Type} (R : A -> A -> Prop) (l : list A) :
  Sorted R l -> NoDup l -> Sorted (fun a b => R a b /\ a <> b) l.
Proof.
  induction 1 as [|a l Hs IH Hd]; intros Hnd; constructor.
  - apply IH. now inversion Hnd.
  - destruct Hd as [|b l' Hab]; constructor. split; [exact Hab|].
    intros ->. inversion Hnd as [|? ? Hin _]. apply Hin. now left.
Qed.

Lemma incl_firstn {A : Type} (n : nat) (l : list A) : incl (firstn n l) l.
Proof.
  revert l. induction n as [|n IH]; intros [|x l]; simpl; intros y Hy;
    try contradiction.
  destruct Hy as [->|Hy]; [now left | right; now apply IH].
Qed.

(** ** Group-by *)

Section GroupByFacts.
Context {R K : Type}.
Variables (keqb kleb : K -> K -> bool).
Variable lib : Library.
Hypothesis keqb_eq : forall a b, keqb a b = true <-> a = b.
Hypothesis kleb_total : forall a b, kleb a b = false -> kleb b a = true.

Lemma uniques_In (k : K) (ks : list K) : In k (uniques keqb ks) <-> In k ks.
Proof.
  induction ks as [|h t IH]; simpl; [tauto|].
  rewrite filter_In, IH. split.
  - intros [->|[Hin _]]; auto.
  - intros [->|Hin]; [now left|].
    destruct (keqb h k) eqn:E.
    + left. now apply keqb_eq.
    + right. now split.
Qed.

Lemma uniques_NoDup (ks : list K) : NoDup (uniques keqb ks).
Proof.
  induction ks as [|h t IH]; simpl; constructor.
  - rewrite filter_In. intros [_ H].
    assert (E : keqb h h = true) by now apply keqb_eq.
    rewrite E in H. discriminate.
  - now apply NoDup_filter.
Qed.

Lemma insert_key_perm (k : K) (l : list K) :
  Permutation (insert_key kleb k l) (k :: l).
Proof.
  induction l as [|h t IH]; simpl; [reflexivity|].
  destruct (kleb k h); [reflexivity|].
  rewrite IH. apply perm_swap.
Qed.

Lemma sort_keys_perm (ks : list K) : Permutation (sort_keys kleb ks) ks.
Proof.
  induction ks as [|h t IH]; simpl; [reflexivity|].
  now rewrite insert_key_perm, IH.
Qed.

Lemma insert_key_sorted (k : K) (l : list K) :
  Sorted (fun a b => kleb a b = true) l ->
  Sorted (fun a b => kleb a b = true) (insert_key kleb k l).
Proof.
  induction 1 as [|h t Hs IH Hd]; simpl.
  - repeat constructor.
  - destruct (kleb k h) eqn:E.
    + repeat constructor; assumption.
    + constructor; [exact IH|].
      destruct Hd as [|h' t' Hh]; simpl.
      * constructor. now apply kleb_total.
      * destruct (kleb k h'); constructor; auto.
Qed.

Lemma sort_keys_sorted (ks : list K) :
  Sorted (fun a b => kleb a b = true) (sort_keys kleb ks).
Proof.
  induction ks as [|h t IH]; simpl; [constructor|].
  now apply insert_key_sorted.
Qed.

Lemma present_keys_In (key : R -> option K) (k : K) (rows : list R) :
  In k (present_keys key rows) <-> exists r, In r rows /\ key r = Some k.
Proof.
  unfold present_keys. rewrite in_flat_map. split.
  - intros (r & Hr & Hk). exists r. split; [exact Hr|].
    destruct (key r); simpl in Hk; [|contradiction].
    destruct Hk as [->|[]]. reflexivity.
  - intros (r & Hr & Hk). exists r. split; [exact Hr|].
    rewrite Hk. now left.
Qed.

(** The index of a grouped sum: the distinct keys present, in order. *)
Lemma groupby_sum_index (key : R -> option K) (val : R -> float)
      (rows : list R) :
  map fst (groupby_sum keqb kleb lib key val rows)
  = sort_keys kleb (uniques keqb (present_keys key rows)).
Proof.
  unfold groupby_sum. rewrite map_map. simpl. apply map_id.
Qed.

Lemma groupby_sum_In (key : R -> option K) (val : R -> float)
      (rows : list R) (k : K) (v : float) :
  In (k, v) (groupby_sum keqb kleb lib key val rows) <->
  (exists r, In r rows /\ key r = Some k)
  /\ v = group_sum lib (map val (filter (in_group keqb key k) rows)).
Proof.
  unfold groupby_sum. rewrite in_map_iff. split.
  - intros (k' & Heq & Hin). injection Heq as -> <-.
    split; [|reflexivity].
    apply present_keys_In, uniques_In.
    now apply (Permutation_in _ (sort_keys_perm _)).
  - intros [Hin ->]. exists k. split; [reflexivity|].
    apply (Permutation_in _ (Permutation_sym (sort_keys_perm _))).
    now apply uniques_In, present_keys_In.
Qed.

Lemma groupby_sum_NoDup (key : R -> option K) (val : R -> float)
      (rows : list R) :
  NoDup (map fst (groupby_sum keqb kleb lib key val rows)).
Proof.
  rewrite groupby_sum_index.
  apply (Permutation_NoDup (Permutation_sym (sort_keys_perm _))).
  apply uniques_NoDup.
Qed.

Lemma groupby_sum_sorted (key : R -> option K) (val : R -> float)
      (rows : list R) :
  Sorted (fun a b => kleb a b = true /\ a <> b)
         (map fst (groupby_sum keqb kleb lib key val rows)).
Proof.
  apply Sorted_NoDup_strict; [|apply groupby_sum_NoDup].
  rewrite groupby_sum_index. apply sort_keys_sorted.
Qed.

(** Looking a key of the index up gives its group's sum. *)
Lemma groupby_sum_find (key : R -> option K) (val : R -> float)
      (rows : list R) (k : K) :
  In k (present_keys key rows) ->
  find (fun e => keqb (fst e) k) (groupby_sum keqb kleb lib key val rows)
  = Some (k, group_sum lib (map val (filter (in_group keqb key k) rows))).
Proof.
  intros Hin. unfold groupby_sum.
  assert (Hk : In k (sort_keys kleb (uniques keqb (present_keys key rows)))).
  { apply (Permutation_in _ (Permutation_sym (sort_keys_perm _))).
    now apply uniques_In. }
  induction (sort_keys kleb (uniques keqb (present_keys key rows)))
    as [|h t IH]; simpl; [contradiction|].
  destruct (keqb h k) eqn:E.
  - apply keqb_eq in E. now subst.
  - apply IH. destruct Hk as [->|Hk]; [|exact Hk].
    assert (E' : keqb k k = true) by now apply keqb_eq.
    congruence.
Qed.

End GroupByFacts.

(** ** Ordering a series *)

Section SeriesFacts.
Context {L : Type}.
Implicit Types (e : L * float) (s l : list (L * float)).

Lemma filter_split_perm {A : Type} (f g : A -> bool) (l : list A) :
  (forall x, g x = negb (f x)) ->
  Permutation (filter f l ++ filter g l) l.
Proof.
  intros Hfg. induction l as [|x l IH]; simpl; [reflexivity|].
  rewrite Hfg. destruct (f x); simpl.
  - now constructor.
  - rewrite <- Permutation_middle. now constructor.
Qed.

Lemma insert_desc_perm e l : Permutation (insert_desc e l) (e :: l).
Proof.
  induction l as [|h t IH]; simpl; [reflexivity|].
  destruct (snd h <=? snd e)%float; [reflexivity|].
  rewrite IH. apply perm_swap.
Qed.

Lemma sort_values_desc_perm s : Permutation (sort_values_desc s) s.
Proof.
  unfold sort_values_desc.
  rewrite <- (filter_split_perm (fun e => notna (snd e))
                                (fun e => isna (snd e)) s) at 3
    by (intros x; apply isna_notna).
  apply Permutation_app_tail.
  induction (filter (fun e => notna (snd e)) s) as [|h t IH]; simpl;
    [reflexivity|].
  now rewrite insert_desc_perm, IH.
Qed.

Lemma insert_desc_sorted e l :
  notna (snd e) = true -> Forall (fun x => notna (snd x) = true) l ->
  Sorted desc l -> Sorted desc (insert_desc e l).
Proof.
  intros He Hl Hs. induction Hs as [|h t Hs IH Hd]; simpl.
  - repeat constructor.
  - inversion Hl as [|? ? Hh Ht]; subst.
    destruct (snd h <=? snd e)%float eqn:E.
    + constructor; [now constructor|]. constructor. now left.
    + constructor; [now apply IH|].
      destruct Hd as [|h' t' Hh']; simpl.
      * constructor. left. now apply leb_total.
      * destruct (snd h' <=? snd e)%float; constructor; auto.
        left. now apply leb_total.
Qed.

Lemma sort_values_desc_sorted s : Sorted desc (sort_values_desc s).
Proof.
  unfold sort_values_desc. apply Sorted_app.
  - assert (H : Forall (fun x => notna (snd x) = true)
                       (filter (fun e => notna (snd e)) s)).
    { apply Forall_forall. intros x Hx. now apply filter_In in Hx. }
    induction H as [|h t Hh Ht IH]; simpl; [constructor|].
    apply insert_desc_sorted; auto.
    apply Forall_forall. intros x Hx.
    assert (Hp : Permutation (fold_right insert_desc [] t) t).
    { clear. induction t as [|a t IHt]; simpl; [reflexivity|].
      now rewrite insert_desc_perm, IHt. }
    apply (Permutation_in _ Hp) in Hx.
    now apply (proj1 (Forall_forall _ _) Ht).
  - induction s as [|h t IH]; simpl; [constructor|].
    destruct (isna (snd h)) eqn:E; [|exact IH].
    constructor; [exact IH|].
    destruct (filter (fun e => isna (snd e)) t) as [|h' t'] eqn:F; constructor.
    right. assert (Hin : In h' (filter (fun e => isna (snd e)) t))
      by (rewrite F; now left).
    now apply filter_In in Hin.
  - intros a b Hb. right. now apply filter_In in Hb.
Qed.

Lemma head_firstn (n : Z) s : 0 <= n -> head n s = firstn (Z.to_nat n) s.
Proof.
  intros Hn. unfold head. destruct (n <? 0) eqn:E; [|reflexivity].
  apply Z.ltb_lt in E. lia.
Qed.

End SeriesFacts.


(** The reference library keeps the laws. *)
Lemma reference_lawful : Lawful reference.
Proof.
  constructor.
  - reflexivity.
  - intros xs H. unfold reference, series_mean, nanmean. now rewrite H.
  - intros L s. apply sort_values_desc_perm.
  - intros L s. apply sort_values_desc_sorted.
Qed.

(** ** The calculation boundary *)

Lemma append_assoc (a b c : string) : (a ++ b) ++ c = a ++ b ++ c.
Proof. induction a as [|x a IH]; simpl; [reflexivity | now rewrite IH]. Qed.

Lemma contains_refl (s : string) : contains s s.
Proof.
  exists "", "". simpl. induction s as [|c s IH]; simpl; [reflexivity|].
  now rewrite <- IH.
Qed.

Lemma contains_prefix (needle pre s : string) :
  contains needle s -> contains needle (pre ++ s).
Proof.
  intros (a & b & ->). exists (pre ++ a), b. now rewrite append_assoc.
Qed.

Lemma contains_suffix (needle s post : string) :
  contains needle s -> contains needle (s ++ post).
Proof.
  intros (a & b & ->). exists a, (b ++ post). now rewrite !append_assoc.
Qed.

Lemma contains_join (sep name : string) (names : list string) :
  In name names -> contains name (join sep names).
Proof.
  unfold join. induction names as [|x names IH]; [contradiction|].
  intros [->|Hin].
  - destruct names as [|y names]; simpl; [apply contains_refl|].
    apply contains_suffix, contains_refl.
  - destruct names as [|y names]; [contradiction|].
    change (String.concat sep (x :: y :: names))
      with (x ++ sep ++ String.concat sep (y :: names)).
    now apply contains_prefix, contains_prefix, IH.
Qed.

Lemma mem_In (x : string) (xs : list string) : mem x xs = true <-> In x xs.
Proof.
  unfold mem. rewrite existsb_exists. split.
  - intros (y & Hy & E). apply String.eqb_eq in E. now subst.
  - intros H. exists x. split; [exact H | apply String.eqb_refl].
Qed.

Lemma lookup_keys {V : Type} (k : string) (d : list (string * V)) :
  In k (keys d) <-> exists v, lookup k d = Some v.
Proof.
  induction d as [|[k' v'] d IH]; simpl.
  - split; [contradiction | intros [v H]; discriminate].
  - destruct (String.eqb_spec k k') as [->|Hne].
    + split; [intros _; now exists v' | now left].
    + rewrite <- IH. split; [intros [E|H]; [congruence | exact H] | now right].
Qed.

Lemma to_datetime_ok (rows df : DataFrame) :
  to_datetime rows = Ok df -> df = rows /\ Forall parses rows.
Proof.
  revert df. induction rows as [|r rows IH]; simpl; intros df H.
  - injection H as <-. split; constructor.
  - destruct (date r) as [d| |err] eqn:E; [| |discriminate];
      (destruct (to_datetime rows) as [rest|e]; simpl in H; [|discriminate];
       injection H as <-; destruct (IH rest eq_refl) as [-> Hall];
       split; [reflexivity|]; constructor; [|exact Hall];
       unfold parses; now rewrite E).
Qed.

Lemma to_datetime_parses (rows : DataFrame) :
  Forall parses rows -> to_datetime rows = Ok rows.
Proof.
  induction 1 as [|r rows Hd _ IH]; simpl; [reflexivity|].
  unfold parses in Hd.
  destruct (date r); [| |contradiction]; now rewrite IH.
Qed.

Lemma to_datetime_raises (rows : DataFrame) :
  ~ Forall parses rows -> exists e, to_datetime rows = Raise e.
Proof.
  induction rows as [|r rows IH]; simpl; intros H.
  - exfalso. apply H. constructor.
  - destruct (date r) as [d| |err] eqn:E; [| |now exists err];
      (destruct IH as [e He];
       [intros Hall; apply H; constructor; [|exact Hall];
        unfold parses; now rewrite E
       |exists e; now rewrite He]).
Qed.

(** A known metric over a frame is the formula applied to the frame. *)
Lemma calculate_body_on_frame (lib : Library) (fs : FileSystem)
      (metric_name dataframe_path time_period : string)
      (group_by : option string) (limit : Z)
      (metric_def : Metric.definition) (df : DataFrame) :
  lookup metric_name METRIC_DEFINITIONS = Some metric_def ->
  frame fs dataframe_path time_period = Some df ->
  calculate_body lib fs metric_name dataframe_path time_period group_by limit
  = apply_formula lib metric_name metric_def df group_by limit.
Proof.
  intros Hm Hf. unfold calculate_body.
  assert (Hk : mem metric_name (keys METRIC_DEFINITIONS) = true).
  { apply mem_In, lookup_keys. now exists metric_def. }
  rewrite Hk. cbn [negb]. unfold frame in Hf.
  destruct (fs dataframe_path) as [| |rows]; try discriminate.
  destruct (to_datetime rows) as [df0|e]; [|discriminate]. cbn [bind].
  unfold getitem. rewrite Hm.
  destruct (String.eqb time_period "all"); cbn [negb andb bind].
  - injection Hf as <-. reflexivity.
  - destruct (_filter_by_time df0 time_period) as [[|r df']|e];
      try discriminate.
    injection Hf as <-. reflexivity.
Qed.

(** Conversely, a result that is not a failure is the formula of a known
    metric applied to a frame. *)
Lemma calculate_success (lib : Library) (fs : FileSystem)
      (metric_name dataframe_path time_period : string)
      (group_by : option string) (limit : Z) (r : report) :
  calculate lib fs metric_name dataframe_path time_period group_by limit = r ->
  is_failure r = false ->
  exists metric_def df,
    lookup metric_name METRIC_DEFINITIONS = Some metric_def
    /\ frame fs dataframe_path time_period = Some df
    /\ apply_formula lib metric_name metric_def df group_by limit = Ok r.
Proof.
  unfold calculate, calculate_body, frame. intros H Hr.
  destruct (mem metric_name (keys METRIC_DEFINITIONS)) eqn:Hk; cbn [negb] in H;
    [|subst r; discriminate].
  apply mem_In, lookup_keys in Hk. destruct Hk as [metric_def Hm].
  exists metric_def.
  destruct (fs dataframe_path) as [| |rows]; try (subst r; discriminate).
  destruct (to_datetime rows) as [df0|e]; cbn [bind] in H;
    [|subst r; discriminate].
  unfold getitem in H. rewrite Hm in H.
  destruct (String.eqb time_period "all"); cbn [negb andb bind] in H.
  - exists df0. repeat split; try assumption.
    destruct (apply_formula lib metric_name metric_def df0 group_by limit);
      [congruence | subst r; discriminate].
  - destruct (_filter_by_time df0 time_period) as [[|r0 df']|e];
      cbn [bind] in H; try (subst r; discriminate).
    exists (r0 :: df'). repeat split; try assumption.
    cbn in H.
    destruct (apply_formula lib metric_name metric_def (r0 :: df') group_by limit);
      [congruence | subst r; discriminate].
Qed.

(* ================================================================== *)
(** * The time filter *)
(* ================================================================== *)

Ltac not_listed :=
  let H := fresh in
  intros H; simpl in H;
  repeat (destruct H as [H|H]; [discriminate|]); exact H.

(** What [int] makes of a string: a number, or one of its two errors. *)
Lemma int_outcome (s : string) :
  (exists n, int s = Ok n)
  \/ int s = Raise (invalid_literal s)
  \/ exists digits,
      (max_str_digits < digits)%nat
      /\ int s
         = Raise ("Exceeds the limit (4300 digits) for integer string conversion: "
                  ++ "value has "
                  ++ NilZero.string_of_uint (Nat.to_uint digits)
                  ++ " digits; use sys.set_int_max_str_digits() "
                  ++ "to increase the limit").
Proof.
  unfold int. destruct (code_points s) as [[|c cs]|]; auto.
  destruct (max_str_digits <? _)%nat eqn:E.
  - right. right. eexists. split; [|reflexivity]. now apply Nat.ltb_lt.
  - destruct (_ =? _)%nat; eauto.
Qed.

(** C3, as stated, fails: the superscript two is a digit for [isdigit] and
    no month or quarter, yet the filter keeps no rows of any year: [int]
    raises on it, and the calculation ends with the text of that error. *)
Lemma superscript_period_raises :
  isdigit "²" = true
  /\ ~ In "²" ["Q1"; "Q2"; "Q3"; "Q4"]
  /\ ~ In "²" month_order
  /\ _filter_by_time sample_sales "²"
     = Raise "invalid literal for int() with base 10: '²'"
  /\ calculate reference sample_files "total_revenue"
               "data/sample_sales_data.csv" "²" None 5
     = Failure
         "Error calculating metric: invalid literal for int() with base 10: '²'".
Proof.
  split; [vm_compute; reflexivity|].
  split; [not_listed|]. split; [not_listed|].
  split; vm_compute; reflexivity.
Qed.

(** C3, amended.  The time filter applies one precedence to every frame and
    period string: ["all"] returns the frame as it is; [Q1] to [Q4] keep
    exactly the rows whose [quarter] is the digit; a month name, spelled as
    in the calendar list, keeps exactly the rows whose [month_name] is that
    name; a string of digits that is none of these is read by [int], and
    keeps exactly the rows whose [year] is the number read when [int] reads
    one, and raises the error of [int] otherwise (a digit without a decimal
    value, or more than 4300 digits); any other string returns the frame as
    it is. *)
Theorem filter_by_time_precedence (df : DataFrame) (time_period : string) :
  (time_period = "all" -> _filter_by_time df time_period = Ok df)
  /\ (forall n : Z,
        In (time_period, n) [("Q1", 1); ("Q2", 2); ("Q3", 3); ("Q4", 4)] ->
        _filter_by_time df time_period
        = Ok (filter (fun r => quarter r =? n) df))
  /\ (In time_period month_order ->
      _filter_by_time df time_period
      = Ok (filter (fun r => match month_name r with
                             | Some name => String.eqb name time_period
                             | None => false
                             end) df))
  /\ (~ In time_period ["Q1"; "Q2"; "Q3"; "Q4"] ->
      ~ In time_period month_order ->
      isdigit time_period = true ->
      (forall n, int time_period = Ok n ->
                 _filter_by_time df time_period
                 = Ok (filter (fun r => year r =? n) df))
      /\ (forall e, int time_period = Raise e ->
                    _filter_by_time df time_period = Raise e)
      /\ ((exists n, int time_period = Ok n)
          \/ int time_period = Raise (invalid_literal time_period)
          \/ exists digits,
              (max_str_digits < digits)%nat
              /\ int time_period
                 = Raise ("Exceeds the limit (4300 digits) for integer string "
                          ++ "conversion: value has "
                          ++ NilZero.string_of_uint (Nat.to_uint digits)
                          ++ " digits; use sys.set_int_max_str_digits() "
                          ++ "to increase the limit")))
  /\ (~ In time_period ["Q1"; "Q2"; "Q3"; "Q4"] ->
      ~ In time_period month_order ->
      isdigit time_period = false ->
      _filter_by_time df time_period = Ok df).
Proof.
  split; [|split; [|split; [|split]]].
  - intros ->. reflexivity.
  - intros n Hn. simpl in Hn.
    destruct Hn as [H|[H|[H|[H|[]]]]]; injection H as <- <-; reflexivity.
  - intros Hm. unfold _filter_by_time, months.
    destruct (mem time_period ["Q1"; "Q2"; "Q3"; "Q4"]) eqn:Hq.
    + apply mem_In in Hq. simpl in Hm, Hq. exfalso.
      repeat (destruct Hq as [Hq|Hq]; [subst time_period;
        repeat (destruct Hm as [Hm|Hm]; [discriminate|]); exact Hm|]).
      exact Hq.
    + apply mem_In in Hm. now rewrite Hm.
  - intros Hq Hm Hd.
    assert (E : _filter_by_time df time_period
                = (year_num <- int time_period ;;
                   Ok (filter (fun r => year r =? year_num) df))).
    { unfold _filter_by_time, months.
      destruct (mem time_period ["Q1"; "Q2"; "Q3"; "Q4"]) eqn:Eq;
        [apply mem_In in Eq; contradiction|].
      destruct (mem time_period month_order) eqn:Em;
        [apply mem_In in Em; contradiction|].
      now rewrite Hd. }
    split; [|split].
    + intros n Hn. now rewrite E, Hn.
    + intros e He. now rewrite E, He.
    + apply int_outcome.
  - intros Hq Hm Hd. unfold _filter_by_time, months.
    destruct (mem time_period ["Q1"; "Q2"; "Q3"; "Q4"]) eqn:Eq;
      [apply mem_In in Eq; contradiction|].
    destruct (mem time_period month_order) eqn:Em;
      [apply mem_In in Em; contradiction|].
    now rewrite Hd.
Qed.

(** The precedence on the sample frame: a quarter, a month name, a year in
    ASCII and in full-width digits, the superscript two, and the name of a
    month in lower case. *)
Lemma filter_by_time_precedence_witness :
  _filter_by_time sample_sales "all" = Ok sample_sales
  /\ _filter_by_time sample_sales "Q1"
     = Ok (filter (fun r => quarter r =? 1) sample_sales)
  /\ _filter_by_time sample_sales "February"
     = Ok (filter (fun r => match month_name r with
                            | Some name => String.eqb name "February"
                            | None => false
                            end) sample_sales)
  /\ _filter_by_time sample_sales "2024"
     = Ok (filter (fun r => year r =? 2024) sample_sales)
  /\ _filter_by_time sample_sales "２０２４"
     = Ok (filter (fun r => year r =? 2024) sample_sales)
  /\ _filter_by_time sample_sales "²" = Raise (invalid_literal "²")
  /\ _filter_by_time sample_sales "february" = Ok sample_sales.
Proof.
  split; [|split; [|split; [|split; [|split; [|split]]]]].
  - apply (proj1 (filter_by_time_precedence sample_sales "all")). reflexivity.
  - apply (proj1 (proj2 (filter_by_time_precedence sample_sales "Q1")) 1).
    simpl. auto.
  - apply (proj1 (proj2 (proj2
             (filter_by_time_precedence sample_sales "February")))).
    simpl. auto 10.
  - apply (proj1 (proj1 (proj2 (proj2 (proj2
             (filter_by_time_precedence sample_sales "2024"))))
             ltac:(not_listed) ltac:(not_listed) eq_refl)).
    vm_compute. reflexivity.
  - apply (proj1 (proj1 (proj2 (proj2 (proj2
             (filter_by_time_precedence sample_sales "２０２４"))))
             ltac:(not_listed) ltac:(not_listed)
             ltac:(vm_compute; reflexivity))).
    vm_compute. reflexivity.
  - apply (proj1 (proj2 (proj1 (proj2 (proj2 (proj2
             (filter_by_time_precedence sample_sales "²"))))
             ltac:(not_listed) ltac:(not_listed)
             ltac:(vm_compute; reflexivity)))).
    vm_compute. reflexivity.
  - apply (proj2 (proj2 (proj2 (proj2
             (filter_by_time_precedence sample_sales "february")))));
      [not_listed | not_listed | reflexivity].
Defined.

(* ================================================================== *)
(** * Failures reported before any formula runs *)
(* ================================================================== *)

(** C4.  A metric name outside the nine entries of the catalogue yields the
    "not found" failure, whatever the other arguments and the file system;
    its message names every entry of the catalogue.  No formula of another
    metric stands in. *)
Theorem unknown_metric_lists_catalogue (lib : Library) (fs : FileSystem)
        (metric_name dataframe_path time_period : string)
        (group_by : option string) (limit : Z) :
  ~ In metric_name (keys METRIC_DEFINITIONS) ->
  List.length (keys METRIC_DEFINITIONS) = 9%nat
  /\ exists message,
      calculate lib fs metric_name dataframe_path time_period group_by limit
      = Failure message
      /\ message
         = "Metric '" ++ metric_name ++ "' not found." ++ NL ++ NL
           ++ "Available: total_revenue, average_order_value, "
           ++ "total_transactions, customer_count, top_products, top_regions, "
           ++ "revenue_by_channel, monthly_revenue, growth_rate"
      /\ forall name, In name (keys METRIC_DEFINITIONS) -> contains name message.
Proof.
  intros Hn. split; [reflexivity|].
  assert (Hk : mem metric_name (keys METRIC_DEFINITIONS) = false).
  { destruct (mem metric_name (keys METRIC_DEFINITIONS)) eqn:E; [|reflexivity].
    apply mem_In in E. contradiction. }
  eexists. split; [|split].
  - unfold calculate, calculate_body. rewrite Hk. reflexivity.
  - reflexivity.
  - intros name Hin.
    do 6 apply contains_prefix.
    now apply contains_join.
Qed.

Lemma unknown_metric_lists_catalogue_witness :
  exists message,
    calculate reference sample_files "profit_margin"
              "data/sample_sales_data.csv" "all" None 5 = Failure message
    /\ contains "growth_rate" message.
Proof.
  destruct (unknown_metric_lists_catalogue
              reference sample_files "profit_margin"
              "data/sample_sales_data.csv" "all" None 5)
    as (_ & message & Hc & _ & Hall).
  - not_listed.
  - exists message. split; [exact Hc|]. apply Hall. simpl. auto 10.
Defined.

(** A filter that leaves no row ends the calculation at once. *)
Lemma no_rows_for_period (lib : Library) (fs : FileSystem)
      (metric_name dataframe_path time_period : string)
      (group_by : option string) (limit : Z) (rows : DataFrame) :
  In metric_name (keys METRIC_DEFINITIONS) ->
  fs dataframe_path = Csv rows ->
  Forall parses rows ->
  time_period <> "all" ->
  _filter_by_time rows time_period = Ok [] ->
  calculate_body lib fs metric_name dataframe_path time_period group_by limit
  = Ok (Failure ("No data for time period: " ++ time_period)).
Proof.
  intros Hk Hfs Hp Hall Hempty.
  apply mem_In in Hk. apply String.eqb_neq in Hall.
  unfold calculate_body.
  rewrite Hk, Hfs, (to_datetime_parses _ Hp). cbn [negb bind].
  now rewrite Hall, Hempty.
Qed.

(** C5.  With a period other than ["all"], a known metric and a table whose
    dates parse, a time filter that leaves no row ends the calculation with
    the "no data for time period" failure.  The result is the same for every
    metric, group column and limit: it is returned before the formula of the
    metric is looked up, so none is applied to the empty frame. *)
Theorem empty_period_reports_no_data (lib : Library) (fs : FileSystem)
        (metric_name dataframe_path time_period : string)
        (group_by : option string) (limit : Z) (rows : DataFrame) :
  In metric_name (keys METRIC_DEFINITIONS) ->
  fs dataframe_path = Csv rows ->
  Forall parses rows ->
  time_period <> "all" ->
  _filter_by_time rows time_period = Ok [] ->
  calculate lib fs metric_name dataframe_path time_period group_by limit
  = Failure ("No data for time period: " ++ time_period)
  /\ frame fs dataframe_path time_period = None.
Proof.
  intros Hk Hfs Hp Hall Hempty. split.
  - unfold calculate.
    now rewrite (no_rows_for_period _ _ _ _ _ _ _ _ Hk Hfs Hp Hall Hempty).
  - unfold frame. rewrite Hfs, (to_datetime_parses _ Hp), Hempty.
    apply String.eqb_neq in Hall. now rewrite Hall.
Qed.

Lemma empty_period_reports_no_data_witness :
  calculate reference sample_files "top_products"
            "data/sample_sales_data.csv" "Q3" None 5
  = Failure "No data for time period: Q3".
Proof.
  apply (empty_period_reports_no_data
           reference sample_files "top_products" "data/sample_sales_data.csv"
           "Q3" None 5 sample_sales).
  - simpl. auto 10.
  - reflexivity.
  - repeat constructor.
  - discriminate.
  - reflexivity.
Defined.

(* ================================================================== *)
(** * Month-over-month growth *)
(* ================================================================== *)

Lemma period_eqb_eq (a b : period) : period_eqb a b = true <-> a = b.
Proof.
  destruct a as [y m], b as [y' m']. unfold period_eqb. simpl.
  rewrite andb_true_iff, !Z.eqb_eq. split; [intros []|intros [=]]; subst; auto.
Qed.

Lemma period_leb_total (a b : period) :
  period_leb a b = false -> period_leb b a = true.
Proof.
  destruct a as [y m], b as [y' m']. unfold period_leb. simpl.
  rewrite orb_false_iff, orb_true_iff, andb_false_iff, andb_true_iff.
  rewrite !Z.ltb_lt, !Z.ltb_ge, !Z.eqb_eq, !Z.eqb_neq, !Z.leb_le, Z.leb_gt. lia.
Qed.

Lemma period_leb_lt (a b : period) :
  period_leb a b = true -> a <> b -> period_lt a b.
Proof.
  destruct a as [y m], b as [y' m']. unfold period_leb, period_lt. simpl.
  rewrite orb_true_iff, andb_true_iff, !Z.ltb_lt, !Z.eqb_eq, !Z.leb_le.
  intros H Hne.
  assert (~ (y = y' /\ m = m')) by (intros []; apply Hne; congruence). lia.
Qed.

Lemma Sorted_impl {A : Type} (P Q : A -> A -> Prop) (l : list A) :
  (forall a b, P a b -> Q a b) -> Sorted P l -> Sorted Q l.
Proof.
  intros HPQ. induction 1 as [|a l Hs IH Hd]; constructor; [exact IH|].
  destruct Hd; constructor; auto.
Qed.

(** The periods of the grouped series come strictly one after the other. *)
Lemma period_sums_sorted (lib : Library) (df : DataFrame) :
  Sorted period_lt (map fst (period_sums lib df)).
Proof.
  apply Sorted_impl with (P := fun a b => period_leb a b = true /\ a <> b).
  - intros a b [Hle Hne]. now apply period_leb_lt.
  - apply groupby_sum_sorted; [exact period_eqb_eq | exact period_leb_total].
Qed.

(** [sort_index] leaves a series that is in index order as it is. *)
Lemma sort_index_sorted (s : list (period * float)) :
  Sorted period_lt (map fst s) -> sort_index s = s.
Proof.
  unfold sort_index. induction s as [|e s IH]; simpl; [reflexivity|].
  intros Hs. inversion Hs as [|? ? Hs' Hd]; subst. rewrite (IH Hs').
  destruct s as [|e' s]; simpl; [reflexivity|].
  inversion Hd as [|? ? Hlt]; subst.
  assert (E : period_leb (fst e) (fst e') = true).
  { destruct e as [[y m] v], e' as [[y' m'] v']. unfold period_lt in Hlt.
    unfold period_leb. simpl in *.
    rewrite orb_true_iff, andb_true_iff, Z.ltb_lt, Z.eqb_eq, Z.leb_le. lia. }
  now rewrite E.
Qed.

Lemma map_snd_last_two {K : Type} (s : list (K * float))
      (front : list float) (previous latest : float) :
  map snd s = (front ++ [previous; latest])%list ->
  exists s' e1 e2,
    s = (s' ++ [e1; e2])%list /\ snd e1 = previous /\ snd e2 = latest.
Proof.
  revert front. induction s as [|e s IH]; intros front H.
  - destruct front; discriminate.
  - destruct front as [|x front]; simpl in H.
    + destruct s as [|e' [|e'' s]]; try discriminate.
      injection H as H1 H2. exists [], e, e'. auto.
    + injection H as _ H. destruct (IH _ H) as (s' & e1 & e2 & -> & H1 & H2).
      exists (e :: s'), e1, e2. auto.
Qed.

(** Fewer than two periods: the growth formula reports the failure. *)
Lemma percentage_change_few_periods (lib : Library) (metric_name : string)
      (df : DataFrame) :
  (List.length (period_sums lib df) < 2)%nat ->
  percentage_change lib metric_name df "revenue"
  = Ok (Failure "Need at least 2 months for growth rate").
Proof.
  intros Hlen. unfold percentage_change.
  change (float_series lib "revenue") with (@Ok (Transaction -> float) revenue).
  cbn [bind]. fold (period_sums lib df).
  rewrite (sort_index_sorted _ (period_sums_sorted lib df)).
  destruct (Z.ltb_spec (Z.of_nat (List.length (period_sums lib df))) 2);
    [reflexivity | lia].
Qed.

(** Two periods or more: the growth between the last two. *)
Lemma percentage_change_last_two (lib : Library) (metric_name : string)
      (df : DataFrame)
      (front : list float) (previous latest : float) :
  map snd (period_sums lib df) = (front ++ [previous; latest])%list ->
  percentage_change lib metric_name df "revenue"
  = Ok (Growth metric_name latest previous (growth_of latest previous)
               (0 <? growth_of latest previous)%float).
Proof.
  intros Hs. unfold percentage_change.
  change (float_series lib "revenue") with (@Ok (Transaction -> float) revenue).
  cbn [bind]. fold (period_sums lib df).
  rewrite (sort_index_sorted _ (period_sums_sorted lib df)).
  destruct (map_snd_last_two _ _ _ _ Hs) as (s' & e1 & e2 & E & <- & <-).
  rewrite E. rewrite length_app. simpl List.length.
  destruct (Z.ltb_spec (Z.of_nat (List.length s' + 2)) 2); [lia|].
  unfold iloc_from_end. rewrite rev_app_distr. simpl. reflexivity.
Qed.

(** [growth_rate] over a frame is the growth formula on the frame. *)
Lemma calculate_growth_rate (lib : Library) (fs : FileSystem)
      (dataframe_path time_period : string) (group_by : option string)
      (limit : Z) (df : DataFrame) :
  frame fs dataframe_path time_period = Some df ->
  calculate_body lib fs "growth_rate" dataframe_path time_period group_by limit
  = percentage_change lib "growth_rate" df "revenue".
Proof.
  intros Hf.
  erewrite calculate_body_on_frame; [|reflexivity|exact Hf]. reflexivity.
Qed.

Lemma percentage_change_growth (lib : Library) (metric_name name : string)
      (df : DataFrame)
      (latest previous growth : float) (positive : bool) :
  percentage_change lib metric_name df "revenue"
  = Ok (Growth name latest previous growth positive) ->
  growth = growth_of latest previous /\ positive = (0 <? growth)%float.
Proof.
  unfold percentage_change.
  change (float_series lib "revenue") with (@Ok (Transaction -> float) revenue).
  cbn [bind].
  destruct (Z.of_nat _ <? 2); [discriminate|].
  destruct (iloc_from_end _ 1) as [l|]; [|discriminate].
  destruct (iloc_from_end _ 2) as [p|]; [|discriminate].
  cbn [bind]. intros [= _ <- <- <- <-]. split; reflexivity.
Qed.


Lemma render_growth_annotation (float_repr : float -> string)
      (metric_name : string) (latest previous growth : float)
      (positive : bool) :
  exists output,
    render float_repr (Growth metric_name latest previous growth positive)
    = output ++ NL ++ annotation positive.
Proof.
  unfold annotation. destruct positive; cbn [render]; eexists; reflexivity.
Qed.





(** January 2023 at 150 and January 2024 at 100 are two periods: growth
    [-33.33%]; within one year a single January is too little. *)
Lemma growth_rate_across_years :
  map fst (period_sums reference two_januaries) = [(2023, 1); (2024, 1)]
  /\ render no_float_labels
            (calculate reference sample_files "growth_rate"
                       "data/two_januaries.csv"
                       "January" None 5)
     = CHECK ++ " growth_rate:" ++ NL ++ NL
       ++ "Latest month: $100.00" ++ NL
       ++ "Previous month: $150.00" ++ NL
       ++ "Growth rate: -33.33%" ++ NL ++ NL
       ++ TREND_DOWN ++ " Negative growth"
  /\ calculate reference sample_files "growth_rate"
               "data/two_januaries.csv" "2024" None 5
     = Failure "Need at least 2 months for growth rate".
Proof. repeat split; vm_compute; reflexivity. Qed.

(** C10.  A growth report carries the positive annotation exactly when its
    growth is above zero; a growth of zero, and so equal latest and previous
    sums, is annotated as negative growth. *)
Theorem growth_trend_annotation (lib : Library) (fs : FileSystem)
        (dataframe_path time_period : string) (group_by : option string)
        (limit : Z) (name : string) (latest previous growth : float)
        (positive : bool) :
  calculate lib fs "growth_rate" dataframe_path time_period group_by limit
  = Growth name latest previous growth positive ->
  growth = growth_of latest previous
  /\ (positive = true <-> (0 <? growth)%float = true)
  /\ ((growth =? 0)%float = true -> positive = false)
  /\ ((latest =? previous)%float = true -> positive = false)
  /\ forall float_repr, exists output,
      render float_repr
             (calculate lib fs "growth_rate" dataframe_path time_period
                        group_by limit)
      = output ++ NL ++ annotation positive.
Proof.
  intros H.
  destruct (calculate_success _ _ _ _ _ _ _ _ H eq_refl)
    as (metric_def & df & Hm & Hf & Ha).
  injection Hm as <-.
  change (percentage_change lib "growth_rate" df "revenue"
          = Ok (Growth name latest previous growth positive)) in Ha.
  destruct (percentage_change_growth _ _ _ _ _ _ _ _ Ha) as [Hg Hp].
  split; [exact Hg|]. split; [|split; [|split]].
  - rewrite Hp. tauto.
  - intros Hz. rewrite Hp. now apply zero_growth_not_positive.
  - intros He. rewrite Hp, Hg. now apply growth_of_equal_periods.
  - intros float_repr. rewrite H. apply render_growth_annotation.
Qed.

(** Two months of 80 each: growth [+0.00%], annotated as negative growth. *)
Lemma growth_trend_annotation_witness :
  calculate reference sample_files "growth_rate" "data/steady.csv" "all" None 5
  = Growth "growth_rate" 80 80 0 false
  /\ exists output,
      render no_float_labels
             (calculate reference sample_files "growth_rate"
                        "data/steady.csv" "all"
                        None 5)
      = output ++ NL ++ TREND_DOWN ++ " Negative growth".
Proof.
  split; [reflexivity|].
  destruct (growth_trend_annotation
              reference sample_files "data/steady.csv" "all" None 5
              "growth_rate" 80 80 0 false eq_refl)
    as (_ & _ & _ & _ & Hr).
  exact (Hr no_float_labels).
Defined.

(** C1, as stated, fails: with January summing to zero and February to
    fifty the calculation returns no failure but a growth report, marked as
    a success, whose growth is infinite. *)
Lemma zero_previous_is_no_error :
  period_sums reference flat_start = [((2024, 1), 0%float); ((2024, 2), 50%float)]
  /\ calculate reference sample_files "growth_rate"
               "data/flat_start.csv" "all" None 5
     = Growth "growth_rate" 50 0 infinity true
  /\ is_failure
       (calculate reference sample_files "growth_rate"
                  "data/flat_start.csv" "all" None 5)
     = false
  /\ render no_float_labels
            (calculate reference sample_files "growth_rate"
                       "data/flat_start.csv" "all"
                       None 5)
     = CHECK ++ " growth_rate:" ++ NL ++ NL
       ++ "Latest month: $50.00" ++ NL
       ++ "Previous month: $0.00" ++ NL
       ++ "Growth rate: +inf%" ++ NL ++ NL
       ++ TREND_UP ++ " Positive growth".
Proof. repeat split; vm_compute; reflexivity. Qed.

(** C1, amended.  When the sum of the previous period is zero, [growth_rate]
    returns the growth report all the same: the division is carried out in
    binary64 arithmetic, the growth reported is an infinity or not-a-number
    (printed [+inf], [-inf] or [+nan]), and the result is no failure. *)
Theorem zero_previous_reports_non_finite_growth (lib : Library)
        (fs : FileSystem)
        (dataframe_path time_period : string) (group_by : option string)
        (limit : Z) (df : DataFrame)
        (front : list float) (previous latest : float) :
  frame fs dataframe_path time_period = Some df ->
  map snd (period_sums lib df) = (front ++ [previous; latest])%list ->
  (previous =? 0)%float = true ->
  let growth := growth_of latest previous in
  let result :=
    calculate lib fs "growth_rate" dataframe_path time_period group_by limit in
  result = Growth "growth_rate" latest previous growth (0 <? growth)%float
  /\ is_failure result = false
  /\ non_finite growth = true
  /\ (format_signed growth = "+inf" \/ format_signed growth = "-inf"
      \/ format_signed growth = "+nan").
Proof.
  intros Hf Hs Hz growth result.
  assert (E : result = Growth "growth_rate" latest previous growth
                              (0 <? growth)%float).
  { unfold result, calculate.
    rewrite (calculate_growth_rate _ _ _ _ _ _ _ Hf).
    now rewrite (percentage_change_last_two _ _ _ _ _ _ Hs). }
  assert (Hn : non_finite growth = true)
    by now apply growth_of_zero_previous.
  split; [exact E|]. split; [now rewrite E|]. split; [exact Hn|].
  now apply non_finite_text.
Qed.

Lemma zero_previous_reports_non_finite_growth_witness :
  calculate reference sample_files "growth_rate"
            "data/flat_start.csv" "all" None 5
  = Growth "growth_rate" 50 0 (growth_of 50 0) (0 <? growth_of 50 0)%float
  /\ non_finite (growth_of 50 0) = true.
Proof.
  destruct (zero_previous_reports_non_finite_growth
              reference sample_files "data/flat_start.csv" "all" None 5 flat_start
              [] 0%float 50%float eq_refl eq_refl eq_refl)
    as (E & _ & Hn & _).
  split; [exact E | exact Hn].
Defined.

(* ================================================================== *)
(** * The mean over no rows *)
(* ================================================================== *)

Lemma calculate_average_order_value (lib : Library) (fs : FileSystem)
      (dataframe_path time_period : string) (group_by : option string)
      (limit : Z) (df : DataFrame) :
  frame fs dataframe_path time_period = Some df ->
  calculate lib fs "average_order_value" dataframe_path time_period group_by limit
  = Currency "average_order_value" (series_mean lib (map revenue df)).
Proof.
  intros Hf. unfold calculate.
  erewrite calculate_body_on_frame; [|reflexivity|exact Hf]. reflexivity.
Qed.

(** C2, as stated, fails at the default period: over a file that holds the
    header and no row, [average_order_value] with period ["all"] returns a
    result marked as a success whose value is not-a-number. *)
Lemma header_only_mean_is_nan :
  frame sample_files "data/header_only.csv" "all" = Some []
  /\ calculate reference sample_files "average_order_value"
               "data/header_only.csv" "all"
               None 5
     = Currency "average_order_value" nan
  /\ is_failure
       (calculate reference sample_files "average_order_value"
                  "data/header_only.csv"
                  "all" None 5)
     = false
  /\ render no_float_labels
            (calculate reference sample_files "average_order_value"
                       "data/header_only.csv" "all" None 5)
     = CHECK ++ " average_order_value: $nan".
Proof. repeat split; vm_compute; reflexivity. Qed.

(** C2, amended.  For every period other than ["all"], a filter that leaves
    no row makes [average_order_value] report the "no data for time period"
    failure, and no mean is taken.  With ["all"] the frame is not checked:
    the mean of a table without rows, not-a-number in pandas, is returned
    as a result. *)
Theorem mean_of_no_rows (lib : Library) (fs : FileSystem)
        (dataframe_path time_period : string)
        (group_by : option string) (limit : Z) (rows : DataFrame) :
  Lawful lib ->
  fs dataframe_path = Csv rows ->
  Forall parses rows ->
  (time_period <> "all" -> _filter_by_time rows time_period = Ok [] ->
   calculate lib fs "average_order_value" dataframe_path time_period group_by limit
   = Failure ("No data for time period: " ++ time_period))
  /\ (time_period = "all" -> rows = [] ->
      calculate lib fs "average_order_value" dataframe_path time_period
                group_by limit
      = Currency "average_order_value" nan).
Proof.
  intros Hlib Hfs Hp. split.
  - intros Hall Hempty. unfold calculate.
    rewrite (no_rows_for_period lib fs "average_order_value" _ _ group_by limit
                                rows);
      auto.
    simpl. auto 10.
  - intros -> ->.
    rewrite (calculate_average_order_value lib fs dataframe_path "all"
                                           group_by limit []);
      [|unfold frame; now rewrite Hfs].
    simpl map. now rewrite (series_mean_none lib Hlib).
Qed.

Lemma mean_of_no_rows_witness :
  calculate reference sample_files "average_order_value"
            "data/sample_sales_data.csv"
            "2019" None 5
  = Failure "No data for time period: 2019"
  /\ calculate reference sample_files "average_order_value"
               "data/header_only.csv" "all"
               None 5
     = Currency "average_order_value" nan.
Proof.
  split.
  - apply (proj1 (mean_of_no_rows
                    reference sample_files "data/sample_sales_data.csv" "2019" None 5
                    sample_sales reference_lawful eq_refl
                    ltac:(repeat constructor)));
      [discriminate | reflexivity].
  - apply (proj2 (mean_of_no_rows
                    reference sample_files "data/header_only.csv" "all" None 5
                    [] reference_lawful eq_refl ltac:(constructor)));
      reflexivity.
Defined.

(* ================================================================== *)
(** * Revenue by month *)
(* ================================================================== *)

Lemma string_leb_total (a b : string) :
  String.leb a b = false -> String.leb b a = true.
Proof.
  intros H. destruct (String.leb_total a b) as [E|E]; [congruence | exact E].
Qed.

Lemma in_month_spec (m : string) (r : Transaction) :
  in_month m r = true <-> month_name r = Some m.
Proof.
  unfold in_month. destruct (month_name r) as [name|].
  - rewrite String.eqb_eq. split; [now intros -> | now intros [= ->]].
  - split; discriminate.
Qed.

Lemma month_in_index (lib : Library) (m : string) (df : DataFrame) :
  in_index m (groupby_sum String.eqb String.leb lib month_name revenue df)
  = existsb (in_month m) df.
Proof.
  apply eq_true_iff_eq. unfold in_index. rewrite !existsb_exists. split.
  - intros ([k v] & Hin & E). simpl in E. apply String.eqb_eq in E. subst k.
    apply (groupby_sum_In String.eqb String.leb lib String.eqb_eq) in Hin.
    destruct Hin as [(r & Hr & Hk) _].
    exists r. split; [exact Hr | now apply in_month_spec].
  - intros (r & Hr & E). apply in_month_spec in E.
    exists (m, month_total lib m df). split; [|apply String.eqb_refl].
    apply (groupby_sum_In String.eqb String.leb lib String.eqb_eq).
    split; [|reflexivity]. exists r. split; [exact Hr | exact E].
Qed.

Lemma month_find (lib : Library) (m : string) (df : DataFrame) :
  existsb (in_month m) df = true ->
  find (fun e => String.eqb (fst e) m)
       (groupby_sum String.eqb String.leb lib month_name revenue df)
  = Some (m, month_total lib m df).
Proof.
  intros H. apply existsb_exists in H. destruct H as (r & Hr & E).
  apply in_month_spec in E.
  apply (groupby_sum_find String.eqb String.leb lib String.eqb_eq).
  apply present_keys_In. exists r. split; [exact Hr | exact E].
Qed.

Lemma time_series_revenue (lib : Library) (metric_name : string)
      (df : DataFrame) :
  time_series lib metric_name df "revenue"
  = Ok (Listing metric_name
                (map (fun m => (CStr m, month_total lib m df))
                     (months_present df))).
Proof.
  unfold time_series.
  change (float_series lib "revenue") with (@Ok (Transaction -> float) revenue).
  cbn [bind]. do 2 f_equal.
  rewrite (filter_ext _ _ (fun m => month_in_index lib m df)).
  fold (months_present df). unfold reindex, relabel. rewrite map_map.
  apply map_ext_in. intros m Hm. simpl.
  apply filter_In in Hm. now rewrite (month_find _ _ _ (proj2 Hm)).
Qed.

(** C8.  Over the frame left by the time filter, [monthly_revenue] lists the
    calendar months that have a row, and only those, in the order January to
    December, each with the sum the group-by takes of the revenue of its
    rows; a month without a row is not listed. *)
Theorem monthly_revenue_in_calendar_order (lib : Library) (fs : FileSystem)
        (dataframe_path time_period : string) (group_by : option string)
        (limit : Z) (df : DataFrame) :
  frame fs dataframe_path time_period = Some df ->
  calculate lib fs "monthly_revenue" dataframe_path time_period group_by limit
  = Listing "monthly_revenue"
            (map (fun m => (CStr m, month_total lib m df)) (months_present df))
  /\ subsequence (months_present df) month_order
  /\ (forall m, In m (months_present df)
                <-> In m month_order
                    /\ exists r, In r df /\ month_name r = Some m).
Proof.
  intros Hf. split; [|split].
  - unfold calculate.
    erewrite calculate_body_on_frame; [|reflexivity|exact Hf].
    change (apply_formula lib "monthly_revenue"
              (Metric.mk "time_series" "revenue" (Some "month_name")
                         "Revenue by month") df group_by limit)
      with (time_series lib "monthly_revenue" df "revenue").
    now rewrite time_series_revenue.
  - apply filter_subsequence.
  - intros m. unfold months_present. rewrite filter_In, existsb_exists.
    split; intros [Hm (r & Hr & E)]; (split; [exact Hm|]); exists r;
      (split; [exact Hr|]); now apply in_month_spec.
Qed.

(** The sample file: January at 100, February at 150, no other month. *)
Lemma monthly_revenue_in_calendar_order_witness :
  calculate reference sample_files "monthly_revenue"
            "data/sample_sales_data.csv" "all" None 5
  = Listing "monthly_revenue"
            [(CStr "January", 100%float); (CStr "February", 150%float)].
Proof.
  exact (proj1 (monthly_revenue_in_calendar_order
                  reference sample_files "data/sample_sales_data.csv" "all"
                  None 5 sample_sales eq_refl)).
Defined.

(* ================================================================== *)
(** * Rankings *)
(* ================================================================== *)

(** The metrics of the catalogue whose formula is the ranking. *)
Lemma ranked_metrics (metric_name : string) (metric_def : Metric.definition) :
  lookup metric_name METRIC_DEFINITIONS = Some metric_def ->
  Metric.formula metric_def = "group_sum_ranked" ->
  (metric_name = "top_products"
   /\ metric_def = Metric.mk "group_sum_ranked" "revenue" (Some "product")
                             "Products ranked by revenue")
  \/ (metric_name = "top_regions"
      /\ metric_def = Metric.mk "group_sum_ranked" "revenue" (Some "region")
                                "Regions ranked by revenue").
Proof.
  unfold METRIC_DEFINITIONS, lookup. intros Hm Hf.
  repeat match type of Hm with
         | (if String.eqb metric_name ?s then _ else _) = _ =>
             destruct (String.eqb_spec metric_name s) as [->|_];
             [injection Hm as <-; try discriminate Hf; auto|]
         end.
  discriminate.
Qed.

Lemma grouped_column_truthy (lib : Library) (df : DataFrame)
      (group_col : option string) (column : string)
      (grouped : list (cell * float)) :
  groupby_sum_of lib df group_col column = Ok grouped ->
  falsy group_col = false.
Proof.
  destruct group_col as [g|]; [|discriminate]. simpl.
  destruct (String.eqb_spec g "") as [->|]; [discriminate | reflexivity].
Qed.

(** C7, as stated, fails: two products of one total are both ranked, so the
    sums of the ranking do not go strictly down; and the engine names no
    tie-break: which of the two comes first is left to the sort of the
    library. *)
Lemma level_products_rank_level :
  groupby_sum_of reference level_products (Some "product") "revenue"
  = Ok [(CStr "Laptop", 75%float); (CStr "Monitor", 20%float);
        (CStr "Mouse", 75%float)]
  /\ exists a b,
      calculate reference sample_files "top_products"
                "data/level_products.csv" "all" None 2
      = Ranking "top_products" 2 [a; b]
      /\ snd a = 75%float /\ snd b = 75%float
      /\ (snd b <? snd a)%float = false.
Proof.
  split; [vm_compute; reflexivity|].
  exists (CStr "Laptop", 75%float), (CStr "Mouse", 75%float).
  repeat split; vm_compute; reflexivity.
Qed.

(** C7, amended.  For a ranking metric and a positive limit [k], over one
    frame and one group column: the ranking is the first [k] entries of the
    full [group_sum] listing of that column, hence at most [k] entries, each
    an entry of the full listing; the full listing has the entries of the
    grouped series; and the sums of the ranking never go up from one entry
    to the next (equal sums may follow each other, in the order the sort of
    the library leaves them). *)
Theorem ranking_is_head_of_group_sum (lib : Library) (fs : FileSystem)
        (metric_name dataframe_path time_period : string)
        (metric_def : Metric.definition)
        (group_by group_by' : option string) (k : Z)
        (df : DataFrame) (grouped : list (cell * float)) :
  Lawful lib ->
  0 < k ->
  frame fs dataframe_path time_period = Some df ->
  lookup metric_name METRIC_DEFINITIONS = Some metric_def ->
  Metric.formula metric_def = "group_sum_ranked" ->
  or_ group_by (Metric.group_by metric_def) = or_ group_by' (Some "channel") ->
  groupby_sum_of lib df (or_ group_by (Metric.group_by metric_def)) "revenue"
  = Ok grouped ->
  let full := sort_values lib grouped in
  let ranked := firstn (Z.to_nat k) full in
  calculate lib fs metric_name dataframe_path time_period group_by k
  = Ranking metric_name k ranked
  /\ calculate lib fs "revenue_by_channel" dataframe_path time_period
               group_by' k
     = Listing "revenue_by_channel" full
  /\ (List.length ranked <= Z.to_nat k)%nat
  /\ incl ranked full
  /\ Sorted desc ranked
  /\ Permutation full grouped.
Proof.
  intros Hlib Hk Hf Hm Hformula Hcol Hg full ranked.
  split; [|split; [|split; [|split; [|split]]]].
  - unfold calculate.
    rewrite (calculate_body_on_frame _ _ _ _ _ _ _ _ _ Hm Hf).
    destruct (ranked_metrics _ _ Hm Hformula) as [[-> ->]|[-> ->]];
      cbn [Metric.group_by] in Hg;
      unfold apply_formula; cbn -[group_sum_ranked];
      unfold group_sum_ranked; cbn [Metric.group_by];
      rewrite (grouped_column_truthy _ _ _ _ _ Hg), Hg; cbn [bind];
      rewrite head_firstn by lia; reflexivity.
  - unfold calculate.
    erewrite calculate_body_on_frame; [|reflexivity|exact Hf].
    unfold apply_formula; cbn -[group_sum_listed].
    unfold group_sum_listed; cbn [Metric.group_by].
    rewrite <- Hcol, Hg. reflexivity.
  - apply firstn_le_length.
  - apply incl_firstn.
  - apply Sorted_firstn, (sort_values_sorted lib Hlib).
  - apply (sort_values_perm lib Hlib).
Qed.

(** The sample file, limit 1: Laptop, the product of the higher revenue. *)
Lemma ranking_is_head_of_group_sum_witness :
  calculate reference sample_files "top_products"
            "data/sample_sales_data.csv" "all" None 1
  = Ranking "top_products" 1 [(CStr "Laptop", 180%float)]
  /\ calculate reference sample_files "revenue_by_channel"
               "data/sample_sales_data.csv" "all" (Some "product") 1
     = Listing "revenue_by_channel"
               [(CStr "Laptop", 180%float); (CStr "Mouse", 70%float)].
Proof.
  destruct (ranking_is_head_of_group_sum
              reference sample_files "top_products"
              "data/sample_sales_data.csv" "all"
              (Metric.mk "group_sum_ranked" "revenue" (Some "product")
                         "Products ranked by revenue")
              None (Some "product") 1 sample_sales
              [(CStr "Laptop", 180%float); (CStr "Mouse", 70%float)]
              reference_lawful ltac:(lia) eq_refl eq_refl eq_refl eq_refl
              eq_refl)
    as (Hr & Hl & _).
  split; [exact Hr | exact Hl].
Defined.

(* ================================================================== *)
(** * Failures at the calculation boundary *)
(* ================================================================== *)

Lemma render_marked (float_repr : float -> string) (r : report) :
  marked float_repr r.
Proof.
  unfold marked.
  destruct r as [message|n v|n c|n c w|n l items|n items|n l p g positive];
    cbn [render is_failure]; try (eexists; reflexivity).
  destruct positive; eexists; rewrite !append_assoc; reflexivity.
Qed.

Lemma to_datetime_first (rows : DataFrame) (err : string) :
  first_unparseable rows = Some err -> to_datetime rows = Raise err.
Proof.
  induction rows as [|r rows IH]; simpl; [discriminate|].
  destruct (date r) as [d| |e]; [| |now intros [= ->]];
    intros H; now rewrite (IH H).
Qed.

Lemma first_unparseable_none (rows : DataFrame) :
  first_unparseable rows = None <-> Forall parses rows.
Proof.
  induction rows as [|r rows IH]; simpl.
  - split; [constructor | reflexivity].
  - split.
    + intros H. constructor.
      * unfold parses. destruct (date r); [exact I | exact I | discriminate].
      * apply IH. destruct (date r); [exact H | exact H | discriminate].
    + intros H. inversion H as [|? ? Hp Hall]; subst. unfold parses in Hp.
      destruct (date r); [now apply IH | now apply IH | contradiction].
Qed.

(** C9, as stated, fails.  A table without rows is no failure under the
    period ["all"]: the total is reported as [$0.00], marked as a success.
    A row whose date cell is empty is no failure either: it is counted with
    the others.  And a failure is a marked text without a kind: a file that
    cannot be read and a date that does not parse come back as the same
    value when the texts of their exceptions are the same. *)
Lemma failures_that_are_not_reported :
  calculate reference sample_files "total_revenue" "data/header_only.csv"
            "all" None 5
  = Currency "total_revenue" 0
  /\ render no_float_labels
            (calculate reference sample_files "total_revenue"
                       "data/header_only.csv" "all" None 5)
     = CHECK ++ " total_revenue: $0.00"
  /\ ~ Forall (fun r => exists d, date r = Parseable d) blank_cells
  /\ calculate reference sample_files "total_transactions"
               "data/blank_cells.csv" "all" None 5
     = Transactions "total_transactions" 2
  /\ calculate reference
               (fun _ => Unreadable "Unknown datetime string format")
               "total_revenue" "data/undated.csv" "all" None 5
     = Failure "Error calculating metric: Unknown datetime string format"
  /\ calculate reference sample_files "total_revenue" "data/undated.csv"
               "all" None 5
     = Failure "Error calculating metric: Unknown datetime string format".
Proof.
  split; [vm_compute; reflexivity|].
  split; [vm_compute; reflexivity|].
  split.
  - intros H. inversion H as [|? ? _ H']; subst.
    inversion H' as [|? ? [d Hd] _]; subst. discriminate Hd.
  - repeat split; vm_compute; reflexivity.
Qed.

(** C9, amended.  Every result of [calculate] is a text that begins with a
    marker, the cross for a failure and the check otherwise.  The failures
    the engine tests for come back with their own text: an unknown metric,
    a file that is not there, a period other than ["all"] that leaves no
    row, fewer than two periods for the growth rate.  What pandas or Python
    raise comes back as "Error calculating metric" with the text of the
    exception: a file that cannot be read, the first date cell that does
    not parse, a period of digits that [int] does not read. *)
Theorem calculate_recovers_every_failure (lib : Library) (fs : FileSystem)
        (metric_name dataframe_path time_period : string)
        (group_by : option string) (limit : Z) :
  let result :=
    calculate lib fs metric_name dataframe_path time_period group_by limit in
  (forall float_repr, marked float_repr result)
  /\ (~ In metric_name (keys METRIC_DEFINITIONS) -> is_failure result = true)
  /\ (In metric_name (keys METRIC_DEFINITIONS) ->
      (fs dataframe_path = Absent ->
       result = Failure ("Data file not found: " ++ dataframe_path))
      /\ (forall err, fs dataframe_path = Unreadable err ->
                      result = Failure ("Error calculating metric: " ++ err))
      /\ (forall rows err,
             fs dataframe_path = Csv rows ->
             first_unparseable rows = Some err ->
             result = Failure ("Error calculating metric: " ++ err))
      /\ (forall rows e,
             fs dataframe_path = Csv rows -> Forall parses rows ->
             time_period <> "all" ->
             _filter_by_time rows time_period = Raise e ->
             result = Failure ("Error calculating metric: " ++ e))
      /\ (forall rows,
             fs dataframe_path = Csv rows -> Forall parses rows ->
             time_period <> "all" ->
             _filter_by_time rows time_period = Ok [] ->
             result = Failure ("No data for time period: " ++ time_period)))
  /\ (metric_name = "growth_rate" ->
      forall df, frame fs dataframe_path time_period = Some df ->
                 (List.length (period_sums lib df) < 2)%nat ->
                 result = Failure "Need at least 2 months for growth rate").
Proof.
  intros result.
  split; [|split; [|split]].
  - intros float_repr. apply render_marked.
  - intros Hn. unfold result, calculate, calculate_body.
    destruct (mem metric_name (keys METRIC_DEFINITIONS)) eqn:E;
      [apply mem_In in E; contradiction | reflexivity].
  - intros Hk. pose proof Hk as Hmem. apply mem_In in Hmem.
    split; [|split; [|split; [|split]]].
    + intros Hfs. unfold result, calculate, calculate_body.
      now rewrite Hmem, Hfs.
    + intros err Hfs. unfold result, calculate, calculate_body.
      now rewrite Hmem, Hfs.
    + intros rows err Hfs Hbad.
      unfold result, calculate, calculate_body.
      now rewrite Hmem, Hfs, (to_datetime_first _ _ Hbad).
    + intros rows e Hfs Hp Hall Hraise.
      apply String.eqb_neq in Hall.
      unfold result, calculate, calculate_body.
      rewrite Hmem, Hfs, (to_datetime_parses _ Hp). cbn [negb bind].
      now rewrite Hall, Hraise.
    + intros rows Hfs Hp Hall Hempty. unfold result, calculate.
      now rewrite (no_rows_for_period _ _ _ _ _ _ _ _ Hk Hfs Hp Hall Hempty).
  - intros -> df Hf Hlen. unfold result, calculate.
    rewrite (calculate_growth_rate _ _ _ _ _ _ _ Hf).
    now rewrite (percentage_change_few_periods _ _ _ Hlen).
Qed.

(** A file that is not there, one that cannot be read, one with a date that
    does not parse, and a period of digits that [int] does not read. *)
Lemma calculate_recovers_every_failure_witness :
  calculate reference sample_files "total_revenue" "data/missing.csv" "all"
            None 5
  = Failure "Data file not found: data/missing.csv"
  /\ calculate reference sample_files "total_revenue" "data/zero_bytes.csv"
               "all" None 5
     = Failure "Error calculating metric: No columns to parse from file"
  /\ calculate reference sample_files "total_revenue" "data/undated.csv"
               "all" None 5
     = Failure "Error calculating metric: Unknown datetime string format"
  /\ calculate reference sample_files "total_revenue"
               "data/sample_sales_data.csv" "²" None 5
     = Failure
         "Error calculating metric: invalid literal for int() with base 10: '²'".
Proof.
  assert (Hk : In "total_revenue" (keys METRIC_DEFINITIONS))
    by (simpl; auto).
  split; [|split; [|split]].
  - destruct (calculate_recovers_every_failure
                reference sample_files "total_revenue" "data/missing.csv"
                "all" None 5)
      as (_ & _ & H & _).
    exact (proj1 (H Hk) eq_refl).
  - destruct (calculate_recovers_every_failure
                reference sample_files "total_revenue" "data/zero_bytes.csv"
                "all" None 5)
      as (_ & _ & H & _).
    exact (proj1 (proj2 (H Hk)) _ eq_refl).
  - destruct (calculate_recovers_every_failure
                reference sample_files "total_revenue" "data/undated.csv"
                "all" None 5)
      as (_ & _ & H & _).
    exact (proj1 (proj2 (proj2 (H Hk))) undated _ eq_refl eq_refl).
  - destruct (calculate_recovers_every_failure
                reference sample_files "total_revenue"
                "data/sample_sales_data.csv" "²" None 5)
      as (_ & _ & H & _).
    apply (proj1 (proj2 (proj2 (proj2 (H Hk)))) sample_sales _ eq_refl).
    + repeat constructor.
    + discriminate.
    + vm_compute. reflexivity.
Defined.

(* ================================================================== *)
(** * Further properties of the time filter *)
(* ================================================================== *)

Lemma filter_true {A : Type} (l : list A) : filter (fun _ => true) l = l.
Proof. induction l as [|x l IH]; simpl; congruence. Qed.

Lemma filter_idem {A : Type} (f : A -> bool) (l : list A) :
  filter f (filter f l) = filter f l.
Proof.
  induction l as [|x l IH]; simpl; [reflexivity|].
  destruct (f x) eqn:E; simpl; [rewrite E|]; congruence.
Qed.

Lemma filter_comm {A : Type} (f g : A -> bool) (l : list A) :
  filter f (filter g l) = filter g (filter f l).
Proof.
  induction l as [|x l IH]; simpl; [reflexivity|].
  destruct (f x) eqn:Ef, (g x) eqn:Eg; simpl; rewrite ?Ef, ?Eg; congruence.
Qed.

(** The time filter reads the period, then tests the rows one by one. *)
Lemma filter_by_time_rowwise (df : DataFrame) (time_period : string) :
  _filter_by_time df time_period
  = (test <- period_test time_period ;; Ok (filter test df)).
Proof.
  unfold _filter_by_time, period_test.
  destruct (mem time_period ["Q1"; "Q2"; "Q3"; "Q4"]).
  { destruct (int (index time_period 1)); reflexivity. }
  destruct (mem time_period months); [reflexivity|].
  destruct (isdigit time_period).
  { destruct (int time_period); reflexivity. }
  cbn [bind]. now rewrite filter_true.
Qed.

(** X1.  Filtering a frame twice by one period is filtering it once, and two
    periods can be applied in either order: the outcome is the same, unless
    both periods are strings of digits that [int] does not read, when each
    order raises the error of the period applied first. *)
Theorem filter_by_time_idempotent_commutes (df : DataFrame)
        (time_period other : string) :
  filter_twice df time_period time_period = _filter_by_time df time_period
  /\ (forall kept kept',
         _filter_by_time df time_period = Ok kept ->
         _filter_by_time df other = Ok kept' ->
         _filter_by_time kept other = _filter_by_time kept' time_period)
  /\ (filter_twice df time_period other = filter_twice df other time_period
      \/ exists e e',
          _filter_by_time df time_period = Raise e
          /\ _filter_by_time df other = Raise e'
          /\ filter_twice df time_period other = Raise e
          /\ filter_twice df other time_period = Raise e').
Proof.
  unfold filter_twice. rewrite !filter_by_time_rowwise.
  destruct (period_test time_period) as [t|e] eqn:Et;
    destruct (period_test other) as [t'|e'] eqn:Eo; cbn [bind];
    rewrite ?filter_by_time_rowwise, ?Et, ?Eo; cbn [bind];
    (split; [try reflexivity; now rewrite filter_idem|]);
    (split; [intros kept kept' [= <-] [= <-] || (intros kept kept' H H';
                                                 discriminate)|]).
  - rewrite !filter_by_time_rowwise, Et, Eo. cbn [bind].
    now rewrite filter_comm.
  - left. now rewrite filter_comm.
  - left. reflexivity.
  - left. reflexivity.
  - right. exists e, e'. auto.
Qed.

(** X2.  The time filter only leaves rows out: what it returns is the frame
    with some rows removed, the others in their order, so never longer than
    the frame; and the filter of two frames put end to end is the two
    filtered frames put end to end. *)
Theorem filter_by_time_narrows (df df' : DataFrame) (time_period : string) :
  (forall kept,
      _filter_by_time df time_period = Ok kept ->
      subsequence kept df /\ (List.length kept <= List.length df)%nat)
  /\ _filter_by_time (df ++ df')%list time_period
     = (kept <- _filter_by_time df time_period ;;
        kept' <- _filter_by_time df' time_period ;;
        Ok (kept ++ kept')%list).
Proof.
  rewrite !filter_by_time_rowwise.
  destruct (period_test time_period) as [t|e]; cbn [bind].
  - split.
    + intros kept [= <-]. split.
      * apply filter_subsequence.
      * apply filter_length_le.
    + now rewrite filter_app.
  - split; [discriminate | reflexivity].
Qed.

Lemma digits_not_named (s : string) (names : list string) :
  isdigit s = true ->
  Forall (fun n => isdigit n = false) names -> mem s names = false.
Proof.
  intros Hd Hn. destruct (mem s names) eqn:E; [|reflexivity].
  apply mem_In in E. rewrite Forall_forall in Hn. apply Hn in E. congruence.
Qed.

(** A period of digits is read by [int] and selects a year. *)
Lemma filter_by_digits (df : DataFrame) (digits : string) :
  isdigit digits = true ->
  _filter_by_time df digits
  = (year_num <- int digits ;; Ok (filter (fun r => year r =? year_num) df)).
Proof.
  intros Hd.
  assert (Hq : Forall (fun n => isdigit n = false) ["Q1"; "Q2"; "Q3"; "Q4"])
    by (repeat constructor).
  assert (Hm : Forall (fun n => isdigit n = false) months)
    by (repeat constructor).
  unfold _filter_by_time.
  now rewrite (digits_not_named _ _ Hd Hq), (digits_not_named _ _ Hd Hm), Hd.
Qed.

Lemma code_points_zero (s : string) :
  code_points ("0" ++ s) = option_map (cons 48%N) (code_points s).
Proof. reflexivity. Qed.

Lemma isdigit_leading_zero (s : string) :
  isdigit s = true -> isdigit ("0" ++ s) = true.
Proof.
  unfold isdigit. rewrite code_points_zero.
  destruct (code_points s) as [[|c cs]|]; try discriminate.
  intros H. cbn [option_map].
  change (forallb is_digit (48%N :: c :: cs))
    with (is_digit 48 && forallb is_digit (c :: cs)).
  now rewrite H.
Qed.

(** What [int] reads after a zero it reads without the zero. *)
Lemma int_leading_zero (s : string) (n : Z) :
  isdigit s = true -> int ("0" ++ s) = Ok n -> int s = Ok n.
Proof.
  unfold isdigit, int. rewrite code_points_zero.
  destruct (code_points s) as [[|c cs]|]; try discriminate.
  intros _. cbn [option_map].
  change (leading_decimals (48%N :: c :: cs))
    with (0 :: leading_decimals (c :: cs)).
  set (ds := leading_decimals (c :: cs)). set (cps := c :: cs).
  cbn [List.length fold_left].
  change (S (List.length ds) =? S (List.length cps))%nat
    with (List.length ds =? List.length cps)%nat.
  change (10 * 0 + 0) with 0.
  destruct (max_str_digits <? S (List.length ds))%nat eqn:E; [discriminate|].
  apply Nat.ltb_ge in E.
  destruct (max_str_digits <? List.length ds)%nat eqn:E'.
  { apply Nat.ltb_lt in E'. lia. }
  destruct (List.length ds =? List.length cps)%nat; [trivial | discriminate].
Qed.

(** X3.  A year may be written after a zero: when [int] reads the digits
    after the zero, it reads the digits alone as the same number, and the
    two periods keep the same rows. *)
Theorem filter_by_time_leading_zero (df : DataFrame) (digits : string)
        (n : Z) :
  isdigit digits = true ->
  int ("0" ++ digits) = Ok n ->
  int digits = Ok n
  /\ _filter_by_time df ("0" ++ digits)
     = Ok (filter (fun r => year r =? n) df)
  /\ _filter_by_time df digits = Ok (filter (fun r => year r =? n) df).
Proof.
  intros Hd Hz. pose proof (int_leading_zero _ _ Hd Hz) as Hn.
  split; [exact Hn|].
  rewrite (filter_by_digits _ _ Hd).
  rewrite (filter_by_digits _ _ (isdigit_leading_zero _ Hd)).
  now rewrite Hz, Hn.
Qed.

Lemma filter_by_time_leading_zero_witness :
  _filter_by_time sample_sales "02024"
  = Ok (filter (fun r => year r =? 2024) sample_sales)
  /\ _filter_by_time sample_sales "2024"
     = Ok (filter (fun r => year r =? 2024) sample_sales).
Proof.
  exact (proj2 (filter_by_time_leading_zero
                  sample_sales "2024" 2024 eq_refl
                  ltac:(vm_compute; reflexivity))).
Defined.

(* ================================================================== *)
(** * The generated calendar columns and the time filter *)
(* ================================================================== *)

Lemma Forall_filter_ext {A : Type} (P : A -> Prop) (f g : A -> bool)
      (l : list A) :
  Forall P l -> (forall x, P x -> f x = g x) -> filter f l = filter g l.
Proof.
  intros Hall Hfg. apply filter_ext_in. intros x Hx.
  apply Hfg. now apply (proj1 (Forall_forall _ _) Hall).
Qed.

Lemma strftime_B_month (d : calendar_date) (i : Z) :
  1 <= d_month d <= 12 -> 1 <= i <= 12 ->
  String.eqb (strftime_B d) (nth (Z.to_nat (i - 1)) month_order "")
  = (d_month d =? i).
Proof.
  intros Hd Hi. unfold strftime_B.
  assert (Hm : d_month d = 1 \/ d_month d = 2 \/ d_month d = 3
               \/ d_month d = 4 \/ d_month d = 5 \/ d_month d = 6
               \/ d_month d = 7 \/ d_month d = 8 \/ d_month d = 9
               \/ d_month d = 10 \/ d_month d = 11 \/ d_month d = 12) by lia.
  assert (Hi' : i = 1 \/ i = 2 \/ i = 3 \/ i = 4 \/ i = 5 \/ i = 6
                \/ i = 7 \/ i = 8 \/ i = 9 \/ i = 10 \/ i = 11 \/ i = 12)
    by lia.
  repeat (destruct Hm as [Hm|Hm]; [rewrite Hm;
    repeat (destruct Hi' as [Hi'|Hi']; [subst i; reflexivity|]);
    subst i; reflexivity|]).
  rewrite Hm.
  repeat (destruct Hi' as [Hi'|Hi']; [subst i; reflexivity|]).
  subst i; reflexivity.
Qed.

(** X4.  A row completed by the data generator has calendar columns that
    agree with its date. *)
Theorem add_useful_columns_consistent (id : string) (d : calendar_date)
        (product region channel : string) (quantity : Z) (unit_price : float)
        (customer : string) (revenue : float) :
  1 <= d_month d <= 12 ->
  let r := add_useful_columns id d product region channel quantity unit_price
                              customer revenue in
  calendar_consistent r
  /\ 1 <= quarter r <= 4
  /\ exists name, month_name r = Some name /\ In name month_order.
Proof.
  intros Hd r. split; [|split].
  - exists d. repeat split; try reflexivity; lia.
  - unfold r, add_useful_columns, dt_quarter. simpl.
    pose proof (Z.div_mod (d_month d - 1) 3 ltac:(lia)).
    pose proof (Z.mod_pos_bound (d_month d - 1) 3 ltac:(lia)). lia.
  - exists (strftime_B d). split; [reflexivity|].
    unfold strftime_B.
    assert (Hm : d_month d = 1 \/ d_month d = 2 \/ d_month d = 3
                 \/ d_month d = 4 \/ d_month d = 5 \/ d_month d = 6
                 \/ d_month d = 7 \/ d_month d = 8 \/ d_month d = 9
                 \/ d_month d = 10 \/ d_month d = 11 \/ d_month d = 12) by lia.
    repeat (destruct Hm as [Hm|Hm]; [rewrite Hm; simpl; auto 15|]).
    rewrite Hm; simpl; auto 15.
Qed.

Lemma add_useful_columns_consistent_witness :
  calendar_consistent
    (add_useful_columns "TXN0001" (mkDate 2024 5 17) "Laptop" "North" "Online"
                        2 900 "CUST1001" 1800).
Proof.
  exact (proj1 (add_useful_columns_consistent
                  "TXN0001" (mkDate 2024 5 17) "Laptop" "North" "Online"
                  2 900 "CUST1001" 1800 ltac:(simpl; lia))).
Defined.

Lemma consistent_month_of_date (r : Transaction) (d : calendar_date) :
  date r = Parseable d -> month_of_date r = d_month d /\ year_of_date r = d_year d.
Proof. intros H. unfold month_of_date, year_of_date. now rewrite H. Qed.

Lemma filter_by_month_name (df : DataFrame) (time_period : string) :
  In time_period month_order ->
  _filter_by_time df time_period = Ok (filter (month_name_is time_period) df).
Proof.
  intros Hm. unfold _filter_by_time, months.
  destruct (mem time_period ["Q1"; "Q2"; "Q3"; "Q4"]) eqn:Hq.
  - apply mem_In in Hq. simpl in Hm, Hq. exfalso.
    repeat (destruct Hq as [Hq|Hq]; [subst time_period;
      repeat (destruct Hm as [Hm|Hm]; [discriminate|]); exact Hm|]).
    exact Hq.
  - apply mem_In in Hm. now rewrite Hm.
Qed.

(** X5.  On a frame whose calendar columns agree with the dates, the time
    filter selects by the date: quarter [n] keeps the rows dated in months
    [3n-2] to [3n], the name of month [i] keeps the rows dated in month [i],
    and a year that [int] reads keeps the rows dated in that year. *)
Theorem filter_by_time_follows_dates (df : DataFrame) :
  Forall calendar_consistent df ->
  (forall q n, In (q, n) [("Q1", 1); ("Q2", 2); ("Q3", 3); ("Q4", 4)] ->
               _filter_by_time df q
               = Ok (filter (fun r => (3 * n - 2 <=? month_of_date r)
                                      && (month_of_date r <=? 3 * n)) df))
  /\ (forall i, 1 <= i <= 12 ->
                _filter_by_time df (nth (Z.to_nat (i - 1)) month_order "")
                = Ok (filter (fun r => month_of_date r =? i) df))
  /\ (forall digits n,
         isdigit digits = true -> int digits = Ok n ->
         _filter_by_time df digits
         = Ok (filter (fun r => year_of_date r =? n) df)).
Proof.
  intros Hall. split; [|split].
  - intros q n Hn.
    assert (Hn' : 1 <= n <= 4).
    { simpl in Hn. destruct Hn as [H|[H|[H|[H|[]]]]];
        injection H as _ H; lia. }
    assert (Hq : forall r, calendar_consistent r ->
                           (quarter r =? n)
                           = (3 * n - 2 <=? month_of_date r)
                             && (month_of_date r <=? 3 * n)).
    { intros r (d & Hd & Hm & _ & _ & Hqr & _).
      destruct (consistent_month_of_date _ _ Hd) as [-> _].
      rewrite Hqr. unfold dt_quarter.
      apply eq_true_iff_eq.
      rewrite Z.eqb_eq, andb_true_iff, !Z.leb_le.
      pose proof (Z.div_mod (d_month d - 1) 3 ltac:(lia)).
      pose proof (Z.mod_pos_bound (d_month d - 1) 3 ltac:(lia)). lia. }
    rewrite <- (Forall_filter_ext _ _ _ _ Hall Hq).
    simpl in Hn.
    destruct Hn as [H|[H|[H|[H|[]]]]]; injection H as <- <-; reflexivity.
  - intros i Hi.
    assert (Hin : In (nth (Z.to_nat (i - 1)) month_order "") month_order).
    { apply nth_In. simpl. lia. }
    rewrite (filter_by_month_name df _ Hin). f_equal.
    apply (Forall_filter_ext _ _ _ _ Hall).
    intros r (d & Hd & Hm & _ & _ & _ & Hname).
    destruct (consistent_month_of_date _ _ Hd) as [-> _].
    unfold month_name_is. rewrite Hname. now apply strftime_B_month.
  - intros digits n Hd Hn.
    rewrite (filter_by_digits _ _ Hd), Hn. cbn [bind]. f_equal.
    apply (Forall_filter_ext _ _ _ _ Hall).
    intros r (d & Hdate & _ & Hy & _).
    destruct (consistent_month_of_date _ _ Hdate) as [_ ->]. now rewrite Hy.
Qed.

Lemma sample_sales_consistent : Forall calendar_consistent sample_sales.
Proof.
  repeat constructor;
    (eexists; repeat split; try reflexivity; simpl; lia).
Qed.

Lemma filter_by_time_follows_dates_witness :
  _filter_by_time sample_sales "February"
  = Ok (filter (fun r => month_of_date r =? 2) sample_sales).
Proof.
  exact (proj1 (proj2 (filter_by_time_follows_dates
                         sample_sales sample_sales_consistent))
               2 ltac:(lia)).
Defined.

(* ================================================================== *)
(** * The scalar metrics *)
(* ================================================================== *)

Lemma calculate_total_revenue (lib : Library) (fs : FileSystem)
      (dataframe_path time_period : string) (group_by : option string)
      (limit : Z) (df : DataFrame) :
  frame fs dataframe_path time_period = Some df ->
  calculate lib fs "total_revenue" dataframe_path time_period group_by limit
  = Currency "total_revenue" (series_sum lib (map revenue df)).
Proof.
  intros Hf. unfold calculate.
  erewrite calculate_body_on_frame; [|reflexivity|exact Hf]. reflexivity.
Qed.

Lemma calculate_total_transactions (lib : Library) (fs : FileSystem)
      (dataframe_path time_period : string) (group_by : option string)
      (limit : Z) (df : DataFrame) :
  frame fs dataframe_path time_period = Some df ->
  calculate lib fs "total_transactions" dataframe_path time_period
            group_by limit
  = Transactions "total_transactions" (Z.of_nat (List.length df)).
Proof.
  intros Hf. unfold calculate.
  erewrite calculate_body_on_frame; [|reflexivity|exact Hf]. reflexivity.
Qed.

Lemma calculate_customer_count (lib : Library) (fs : FileSystem)
      (dataframe_path time_period : string) (group_by : option string)
      (limit : Z) (df : DataFrame) :
  frame fs dataframe_path time_period = Some df ->
  calculate lib fs "customer_count" dataframe_path time_period group_by limit
  = Unique "customer_count"
           (Z.of_nat
              (List.length
                 (uniques String.eqb (present_keys customer_id df))))
           "customer id".
Proof.
  intros Hf. unfold calculate.
  erewrite calculate_body_on_frame; [|reflexivity|exact Hf]. reflexivity.
Qed.

Lemma filter_by_time_nil (time_period : string) (kept : DataFrame) :
  _filter_by_time [] time_period = Ok kept -> kept = [].
Proof.
  rewrite filter_by_time_rowwise.
  destruct (period_test time_period); cbn [bind]; [|discriminate].
  now intros [= <-].
Qed.

(** X6.  Over a table that has the header and no row, with the period
    ["all"], no metric fails for want of data: the total is zero, the counts
    are zero, the rankings and listings are empty, and only the growth rate
    fails, for want of two months.  With any other period every metric
    reports that there is no data for the period, unless the period is a
    string of digits that [int] does not read, which is reported as the
    error of [int]. *)
Theorem header_only_table (lib : Library) (fs : FileSystem)
        (dataframe_path : string) (limit : Z) :
  Lawful lib ->
  fs dataframe_path = Csv [] ->
  calculate lib fs "total_revenue" dataframe_path "all" None limit
  = Currency "total_revenue" 0
  /\ calculate lib fs "total_transactions" dataframe_path "all" None limit
     = Transactions "total_transactions" 0
  /\ calculate lib fs "customer_count" dataframe_path "all" None limit
     = Unique "customer_count" 0 "customer id"
  /\ (0 <= limit ->
      calculate lib fs "top_products" dataframe_path "all" None limit
      = Ranking "top_products" limit [])
  /\ calculate lib fs "revenue_by_channel" dataframe_path "all" None limit
     = Listing "revenue_by_channel" []
  /\ calculate lib fs "monthly_revenue" dataframe_path "all" None limit
     = Listing "monthly_revenue" []
  /\ calculate lib fs "growth_rate" dataframe_path "all" None limit
     = Failure "Need at least 2 months for growth rate"
  /\ (forall metric_name time_period group_by,
         In metric_name (keys METRIC_DEFINITIONS) -> time_period <> "all" ->
         calculate lib fs metric_name dataframe_path time_period group_by limit
         = match _filter_by_time [] time_period with
           | Ok _ => Failure ("No data for time period: " ++ time_period)
           | Raise e => Failure ("Error calculating metric: " ++ e)
           end).
Proof.
  intros Hlib Hfs.
  assert (Hnil : forall L : Type, sort_values lib (@nil (L * float)) = []).
  { intros L. apply Permutation_nil, Permutation_sym.
    apply (sort_values_perm lib Hlib). }
  assert (Hf : frame fs dataframe_path "all" = Some []).
  { unfold frame. now rewrite Hfs. }
  repeat match goal with |- _ /\ _ => split end.
  - rewrite (calculate_total_revenue _ _ _ _ _ _ _ Hf). simpl map.
    now rewrite (series_sum_nil lib Hlib).
  - now rewrite (calculate_total_transactions _ _ _ _ _ _ _ Hf).
  - now rewrite (calculate_customer_count _ _ _ _ _ _ _ Hf).
  - intros Hl. unfold calculate.
    erewrite calculate_body_on_frame; [|reflexivity|exact Hf].
    cbn. rewrite Hnil. unfold head.
    destruct (limit <? 0); now rewrite firstn_nil.
  - unfold calculate.
    erewrite calculate_body_on_frame; [|reflexivity|exact Hf].
    cbn. now rewrite Hnil.
  - unfold calculate.
    erewrite calculate_body_on_frame; [|reflexivity|exact Hf].
    reflexivity.
  - unfold calculate.
    erewrite calculate_body_on_frame; [|reflexivity|exact Hf].
    reflexivity.
  - intros metric_name time_period group_by Hk Hp.
    destruct (_filter_by_time [] time_period) as [kept|e] eqn:E.
    + pose proof (filter_by_time_nil _ _ E) as ->. unfold calculate.
      rewrite (no_rows_for_period lib fs metric_name dataframe_path
                                  time_period group_by limit []); auto.
    + apply mem_In in Hk. apply String.eqb_neq in Hp.
      unfold calculate, calculate_body. rewrite Hk, Hfs. cbn [negb to_datetime bind].
      now rewrite Hp, E.
Qed.

Lemma header_only_table_witness :
  calculate reference sample_files "total_revenue" "data/header_only.csv"
            "all" None 5
  = Currency "total_revenue" 0
  /\ calculate reference sample_files "growth_rate" "data/header_only.csv"
               "Q1" None 5
     = Failure "No data for time period: Q1"
  /\ calculate reference sample_files "growth_rate" "data/header_only.csv"
               "²" None 5
     = Failure ("Error calculating metric: " ++ invalid_literal "²").
Proof.
  destruct (header_only_table reference sample_files "data/header_only.csv" 5
                              reference_lawful eq_refl)
    as (H & _ & _ & _ & _ & _ & _ & Hp).
  split; [exact H|]. split.
  - apply (Hp "growth_rate" "Q1" None); [simpl; auto 10 | discriminate].
  - apply (Hp "growth_rate" "²" None); [simpl; auto 10 | discriminate].
Defined.

Lemma uniques_length_le {K : Type} (keqb : K -> K -> bool) (ks : list K) :
  (List.length (uniques keqb ks) <= List.length ks)%nat.
Proof.
  induction ks as [|k ks IH]; simpl; [lia|].
  pose proof (filter_length_le (fun k' => negb (keqb k k')) (uniques keqb ks)).
  lia.
Qed.

Lemma present_keys_length_le {R K : Type} (key : R -> option K)
      (rows : list R) :
  (List.length (present_keys key rows) <= List.length rows)%nat.
Proof.
  unfold present_keys. induction rows as [|r rows IH]; simpl; [lia|].
  rewrite length_app. destruct (key r); simpl; lia.
Qed.

(** X7.  Over one frame, [customer_count] is the number of distinct customer
    identifiers of the rows, the rows without an identifier left aside: it
    is at most [total_transactions], the number of rows, and at least one
    when a row has an identifier. *)
Theorem customers_at_most_transactions (lib : Library) (fs : FileSystem)
        (dataframe_path time_period : string) (group_by : option string)
        (limit : Z) (df : DataFrame) :
  frame fs dataframe_path time_period = Some df ->
  exists customers,
    NoDup customers
    /\ (forall c, In c customers
                  <-> exists r, In r df /\ customer_id r = Some c)
    /\ calculate lib fs "customer_count" dataframe_path time_period
                 group_by limit
       = Unique "customer_count" (Z.of_nat (List.length customers))
                "customer id"
    /\ calculate lib fs "total_transactions" dataframe_path time_period
                 group_by limit
       = Transactions "total_transactions" (Z.of_nat (List.length df))
    /\ (List.length customers <= List.length df)%nat
    /\ ((exists r c, In r df /\ customer_id r = Some c) ->
        (1 <= List.length customers)%nat).
Proof.
  intros Hf. exists (uniques String.eqb (present_keys customer_id df)).
  split; [|split; [|split; [|split; [|split]]]].
  - apply uniques_NoDup, String.eqb_eq.
  - intros c. rewrite (uniques_In String.eqb String.eqb_eq).
    apply present_keys_In.
  - now apply calculate_customer_count.
  - now apply calculate_total_transactions.
  - pose proof (uniques_length_le String.eqb (present_keys customer_id df)).
    pose proof (present_keys_length_le customer_id df). lia.
  - intros (r & c & Hr & Hc).
    assert (Hin : In c (uniques String.eqb (present_keys customer_id df))).
    { apply (uniques_In String.eqb String.eqb_eq), present_keys_In.
      now exists r. }
    destruct (uniques String.eqb (present_keys customer_id df));
      [contradiction | simpl; lia].
Qed.

(** The sample file has four rows of three customers; of the two rows of
    the file with blank cells one names a customer. *)
Lemma customers_at_most_transactions_witness :
  calculate reference sample_files "customer_count"
            "data/sample_sales_data.csv" "all" None 5
  = Unique "customer_count" 3 "customer id"
  /\ calculate reference sample_files "total_transactions"
               "data/sample_sales_data.csv" "all" None 5
     = Transactions "total_transactions" 4
  /\ calculate reference sample_files "customer_count"
               "data/blank_cells.csv" "all" None 5
     = Unique "customer_count" 1 "customer id".
Proof.
  destruct (customers_at_most_transactions
              reference sample_files "data/sample_sales_data.csv" "all" None 5
              sample_sales eq_refl)
    as (customers & _ & _ & _ & Ht & _).
  split; [reflexivity|]. split; [exact Ht | reflexivity].
Defined.

(* ================================================================== *)
(** * Periods, dates and arguments that do not matter *)
(* ================================================================== *)

Lemma unrecognised_filter (df : DataFrame) (time_period : string) :
  unrecognised time_period -> _filter_by_time df time_period = Ok df.
Proof.
  intros (_ & Hq & Hm & Hd). unfold _filter_by_time, months.
  destruct (mem time_period ["Q1"; "Q2"; "Q3"; "Q4"]) eqn:Eq;
    [apply mem_In in Eq; contradiction|].
  destruct (mem time_period month_order) eqn:Em;
    [apply mem_In in Em; contradiction|].
  now rewrite Hd.
Qed.

(** X9.  A period the time filter does not know changes nothing on a table
    that has rows: every calculation returns what it returns for ["all"].
    On a table without rows it is still taken as a filter, and every known
    metric reports that there is no data for it. *)
Theorem unrecognised_period_is_all (lib : Library) (fs : FileSystem)
        (metric_name dataframe_path time_period : string)
        (group_by : option string) (limit : Z) (rows : DataFrame) :
  unrecognised time_period ->
  fs dataframe_path = Csv rows ->
  (rows <> [] ->
   calculate lib fs metric_name dataframe_path time_period group_by limit
   = calculate lib fs metric_name dataframe_path "all" group_by limit)
  /\ (rows = [] -> In metric_name (keys METRIC_DEFINITIONS) ->
      calculate lib fs metric_name dataframe_path time_period group_by limit
      = Failure ("No data for time period: " ++ time_period)).
Proof.
  intros Hu Hfs. pose proof Hu as (Hall & _). apply String.eqb_neq in Hall.
  split.
  - intros Hne. unfold calculate, calculate_body. rewrite Hfs.
    destruct (negb (mem metric_name (keys METRIC_DEFINITIONS)));
      [reflexivity|].
    destruct (to_datetime rows) as [df|e] eqn:E; [|reflexivity].
    apply to_datetime_ok in E. destruct E as [-> _]. cbn [bind].
    rewrite Hall, (unrecognised_filter _ _ Hu). cbn [negb andb bind].
    destruct rows as [|r rows]; [congruence | reflexivity].
  - intros -> Hk. apply mem_In in Hk.
    unfold calculate, calculate_body. rewrite Hfs, Hk. cbn.
    rewrite Hall, (unrecognised_filter _ _ Hu). reflexivity.
Qed.

Lemma unrecognised_period_is_all_witness :
  calculate reference sample_files "total_revenue" "data/sample_sales_data.csv"
            "last week" None 5
  = calculate reference sample_files "total_revenue"
              "data/sample_sales_data.csv"
              "all" None 5.
Proof.
  apply (proj1 (unrecognised_period_is_all
                  reference sample_files "total_revenue" "data/sample_sales_data.csv"
                  "last week" None 5 sample_sales
                  ltac:(repeat split; [discriminate | not_listed | not_listed])
                  eq_refl)).
  discriminate.
Defined.

(** X10.  The dates are parsed before the time filter runs: one date that
    does not parse, anywhere in the table, makes every known metric fail for
    every period with the message of the first such date, whether or not
    the period would have kept the row. *)
Theorem unparseable_date_fails_every_metric (lib : Library) (fs : FileSystem)
        (metric_name dataframe_path time_period : string)
        (group_by : option string) (limit : Z) (rows : DataFrame)
        (err : string) :
  In metric_name (keys METRIC_DEFINITIONS) ->
  fs dataframe_path = Csv rows ->
  first_unparseable rows = Some err ->
  calculate lib fs metric_name dataframe_path time_period group_by limit
  = Failure ("Error calculating metric: " ++ err).
Proof.
  intros Hk Hfs He. apply mem_In in Hk.
  unfold calculate, calculate_body.
  now rewrite Hk, Hfs, (to_datetime_first _ _ He).
Qed.

Lemma unparseable_date_fails_every_metric_witness :
  calculate reference sample_files "total_transactions"
            "data/undated.csv" "2023" None 5
  = Failure "Error calculating metric: Unknown datetime string format".
Proof.
  apply (unparseable_date_fails_every_metric
           reference sample_files "total_transactions" "data/undated.csv" "2023" None 5
           undated "Unknown datetime string format");
    [simpl; auto 10 | reflexivity | reflexivity].
Defined.

(** X11.  The group column and the limit reach only the formulas that use
    them: the sum, the mean, the counts, the monthly listing and the growth
    rate return the same for every group column and limit, and the
    [group_sum] listing the same for every limit. *)
Theorem unused_arguments_are_ignored (lib : Library) (fs : FileSystem)
        (metric_name dataframe_path time_period : string)
        (group_by group_by' : option string) (limit limit' : Z) :
  (In metric_name ["total_revenue"; "average_order_value";
                   "total_transactions"; "customer_count";
                   "monthly_revenue"; "growth_rate"] ->
   calculate lib fs metric_name dataframe_path time_period group_by limit
   = calculate lib fs metric_name dataframe_path time_period group_by' limit')
  /\ calculate lib fs "revenue_by_channel" dataframe_path time_period
               group_by limit
     = calculate lib fs "revenue_by_channel" dataframe_path time_period
                 group_by limit'.
Proof.
  split.
  - intros Hin. simpl in Hin.
    repeat (destruct Hin as [<-|Hin];
      [unfold calculate, calculate_body;
       destruct (fs dataframe_path) as [| |rows]; reflexivity|]).
    contradiction.
  - unfold calculate, calculate_body.
    destruct (fs dataframe_path) as [| |rows]; reflexivity.
Qed.

Lemma unused_arguments_are_ignored_witness :
  calculate reference sample_files "growth_rate"
            "data/sample_sales_data.csv" "all"
            (Some "colour") (-3)
  = calculate reference sample_files "growth_rate"
              "data/sample_sales_data.csv" "all"
              None 5.
Proof.
  apply (proj1 (unused_arguments_are_ignored
                  reference sample_files "growth_rate" "data/sample_sales_data.csv"
                  "all" (Some "colour") None (-3) 5)).
  simpl. auto 10.
Defined.

(* ================================================================== *)
(** * The group column *)
(* ================================================================== *)

Lemma or_default (group_by : option string) (default : string) :
  default <> "" ->
  falsy (or_ group_by (Some default)) = false
  /\ (falsy group_by = true -> or_ group_by (Some default) = Some default)
  /\ (falsy group_by = false -> or_ group_by (Some default) = group_by).
Proof.
  intros Hd. apply String.eqb_neq in Hd.
  destruct group_by as [g|]; simpl.
  - destruct (String.eqb g "") eqn:E; simpl; rewrite ?Hd, ?E;
      repeat split; auto; discriminate.
  - rewrite Hd. repeat split; auto; discriminate.
Qed.

(** The ranking and the listing over a frame, by their group column. *)
Lemma calculate_ranking (lib : Library) (fs : FileSystem)
      (metric_name dataframe_path time_period default description : string)
      (group_by : option string) (limit : Z) (df : DataFrame) :
  lookup metric_name METRIC_DEFINITIONS
  = Some (Metric.mk "group_sum_ranked" "revenue" (Some default) description) ->
  default <> "" ->
  frame fs dataframe_path time_period = Some df ->
  calculate lib fs metric_name dataframe_path time_period group_by limit
  = match groupby_sum_of lib df (or_ group_by (Some default)) "revenue" with
    | Ok grouped =>
        Ranking metric_name limit (head limit (sort_values lib grouped))
    | Raise e => Failure ("Error calculating metric: " ++ e)
    end.
Proof.
  intros Hm Hd Hf. unfold calculate.
  rewrite (calculate_body_on_frame _ _ _ _ _ _ _ _ _ Hm Hf).
  unfold apply_formula; cbn -[group_sum_ranked].
  unfold group_sum_ranked; cbn [Metric.group_by].
  rewrite (proj1 (or_default group_by default Hd)).
  destruct (groupby_sum_of lib df (or_ group_by (Some default)) "revenue");
    reflexivity.
Qed.

Lemma calculate_listing (lib : Library) (fs : FileSystem)
      (dataframe_path time_period : string)
      (group_by : option string) (limit : Z) (df : DataFrame) :
  frame fs dataframe_path time_period = Some df ->
  calculate lib fs "revenue_by_channel" dataframe_path time_period group_by limit
  = match groupby_sum_of lib df (or_ group_by (Some "channel")) "revenue" with
    | Ok grouped => Listing "revenue_by_channel" (sort_values lib grouped)
    | Raise e => Failure ("Error calculating metric: " ++ e)
    end.
Proof.
  intros Hf. unfold calculate.
  erewrite calculate_body_on_frame; [|reflexivity|exact Hf].
  unfold apply_formula; cbn -[group_sum_listed].
  unfold group_sum_listed; cbn [Metric.group_by].
  destruct (groupby_sum_of lib df (or_ group_by (Some "channel")) "revenue");
    reflexivity.
Qed.

(** X12.  A group column passed to a ranking metric takes precedence over
    the column of the metric: with the same column passed, [top_products]
    and [top_regions] rank the same groups.  An empty string passed as the
    column counts as none, and the column of the metric is used. *)
Theorem group_by_overrides_default (lib : Library) (fs : FileSystem)
        (dataframe_path time_period group_col : string) (limit : Z)
        (df : DataFrame) :
  frame fs dataframe_path time_period = Some df ->
  (group_col <> "" ->
   same_entries
     (calculate lib fs "top_products" dataframe_path time_period
                (Some group_col) limit)
     (calculate lib fs "top_regions" dataframe_path time_period
                (Some group_col) limit))
  /\ calculate lib fs "top_products" dataframe_path time_period (Some "") limit
     = calculate lib fs "top_products" dataframe_path time_period None limit
  /\ calculate lib fs "top_products" dataframe_path time_period
               (Some "product") limit
     = calculate lib fs "top_products" dataframe_path time_period None limit.
Proof.
  intros Hf. split; [|split].
  - intros Hg. apply String.eqb_neq in Hg.
    rewrite (calculate_ranking lib fs "top_products" _ _ "product" _ _ _ df
                               eq_refl ltac:(discriminate) Hf).
    rewrite (calculate_ranking lib fs "top_regions" _ _ "region" _ _ _ df
                               eq_refl ltac:(discriminate) Hf).
    cbn [or_]. rewrite Hg.
    destruct (groupby_sum_of lib df (Some group_col) "revenue"); simpl; auto.
  - rewrite !(calculate_ranking lib fs "top_products" _ _ "product" _ _ _ df
                                eq_refl ltac:(discriminate) Hf).
    reflexivity.
  - rewrite !(calculate_ranking lib fs "top_products" _ _ "product" _ _ _ df
                                eq_refl ltac:(discriminate) Hf).
    reflexivity.
Qed.

Lemma group_by_overrides_default_witness :
  same_entries
    (calculate reference sample_files "top_products"
               "data/sample_sales_data.csv" "all"
               (Some "channel") 5)
    (calculate reference sample_files "top_regions"
               "data/sample_sales_data.csv" "all"
               (Some "channel") 5).
Proof.
  apply (proj1 (group_by_overrides_default
                  reference sample_files "data/sample_sales_data.csv" "all" "channel" 5
                  sample_sales eq_refl)).
  discriminate.
Defined.

(** X13.  A group column the table does not have makes the ranking and the
    listing fail with the [repr] of the name of the column, the text of the
    key error. *)
Theorem unknown_group_column_fails (lib : Library) (fs : FileSystem)
        (metric_name dataframe_path time_period group_col : string)
        (limit : Z) (df : DataFrame) :
  frame fs dataframe_path time_period = Some df ->
  In metric_name ["top_products"; "top_regions"; "revenue_by_channel"] ->
  group_col <> "" ->
  lookup group_col columns = None ->
  calculate lib fs metric_name dataframe_path time_period (Some group_col) limit
  = Failure ("Error calculating metric: " ++ repr lib group_col).
Proof.
  intros Hf Hin Hg Hc. apply String.eqb_neq in Hg. simpl in Hin.
  destruct Hin as [<-|[<-|[<-|[]]]].
  - rewrite (calculate_ranking lib fs "top_products" _ _ "product" _ _ _ df
                               eq_refl ltac:(discriminate) Hf).
    cbn [or_]. rewrite Hg. unfold groupby_sum_of, groupby_column_sum.
    now rewrite Hc.
  - rewrite (calculate_ranking lib fs "top_regions" _ _ "region" _ _ _ df
                               eq_refl ltac:(discriminate) Hf).
    cbn [or_]. rewrite Hg. unfold groupby_sum_of, groupby_column_sum.
    now rewrite Hc.
  - rewrite (calculate_listing _ _ _ _ _ _ _ Hf).
    cbn [or_]. rewrite Hg. unfold groupby_sum_of, groupby_column_sum.
    now rewrite Hc.
Qed.

Lemma unknown_group_column_fails_witness :
  calculate reference sample_files "revenue_by_channel"
            "data/sample_sales_data.csv"
            "all" (Some "Product") 5
  = Failure "Error calculating metric: 'Product'".
Proof.
  apply (unknown_group_column_fails
           reference sample_files "revenue_by_channel" "data/sample_sales_data.csv"
           "all" "Product" 5 sample_sales eq_refl);
    [simpl; auto | discriminate | reflexivity].
Defined.

(* ================================================================== *)
(** * Failures the catalogue rules out *)
(* ================================================================== *)

Lemma lookup_In {V : Type} (k : string) (d : list (string * V)) (v : V) :
  lookup k d = Some v -> In v (map snd d).
Proof.
  induction d as [|[k' v'] d IH]; simpl; [discriminate|].
  destruct (String.eqb k k'); [intros [= ->]; now left | right; auto].
Qed.

Ltac failure_initial :=
  match goal with
  | H : Ok _ = Ok (Failure _) |- _ => injection H as <-
  | H : Ok (Failure _) = Ok (Failure _) |- _ => injection H as <-
  end;
  eexists; eexists; split; [reflexivity | simpl; auto 10].

(** Every failure message [calculate] returns begins "Metric", "Data",
    "Error", "No" or "Need". *)
Lemma failure_message_initial (lib : Library) (fs : FileSystem)
      (metric_name dataframe_path time_period : string)
      (group_by : option string) (limit : Z) (message : string) :
  calculate lib fs metric_name dataframe_path time_period group_by limit
  = Failure message ->
  exists c rest,
    message = String c rest /\ In c ["M"; "D"; "E"; "N"]%char.
Proof.
  unfold calculate.
  destruct (calculate_body lib fs metric_name dataframe_path time_period
                           group_by limit) as [r|e] eqn:E.
  2:{ intros [= <-]. eexists; eexists; split; [reflexivity | simpl; auto]. }
  intros ->. unfold calculate_body in E.
  destruct (mem metric_name (keys METRIC_DEFINITIONS)) eqn:Hk; cbn [negb] in E;
    [|failure_initial].
  destruct (fs dataframe_path) as [| |rows]; [failure_initial|discriminate|].
  destruct (to_datetime rows) as [df0|e]; cbn [bind] in E; [|discriminate].
  destruct (if negb (String.eqb time_period "all")
            then _filter_by_time df0 time_period else Ok df0) as [df|e];
    cbn [bind] in E; [|discriminate].
  destruct (_ && _) in E; [failure_initial|].
  unfold getitem in E.
  destruct (lookup metric_name METRIC_DEFINITIONS) as [metric_def|] eqn:Hm;
    cbn [bind] in E; [|discriminate].
  apply lookup_In in Hm. simpl in Hm.
  repeat (destruct Hm as [<-|Hm]; [|]); try contradiction;
    unfold apply_formula in E; cbn -[group_sum_ranked group_sum_listed
                                     time_series percentage_change
                                     series_sum series_mean
                                     column_nunique] in E;
    try discriminate.
  all: try (unfold group_sum_ranked in E; cbn [Metric.group_by] in E;
            first [ rewrite (proj1 (or_default group_by "product"
                                               ltac:(discriminate))) in E
                  | rewrite (proj1 (or_default group_by "region"
                                               ltac:(discriminate))) in E ];
            destruct (groupby_sum_of _ _ _); discriminate).
  all: try (unfold group_sum_listed in E; cbn [Metric.group_by] in E;
            destruct (groupby_sum_of _ _ _); discriminate).
  all: try (rewrite time_series_revenue in E; discriminate).
  unfold percentage_change in E.
  change (float_series lib "revenue")
    with (@Ok (Transaction -> float) revenue) in E.
  cbn [bind] in E.
  destruct (Z.of_nat _ <? 2); [failure_initial|].
  destruct (iloc_from_end _ 1); [|discriminate].
  destruct (iloc_from_end _ 2); discriminate.
Qed.

(** X14.  With the catalogue as it is, two failures of [calculate] are out
    of reach for every input: the ranking never asks for a group column,
    since each ranking metric has one of its own, and no formula is ever
    unknown. *)
Theorem unreachable_failures (lib : Library) (fs : FileSystem)
        (metric_name dataframe_path time_period : string)
        (group_by : option string) (limit : Z) :
  calculate lib fs metric_name dataframe_path time_period group_by limit
  <> Failure "This metric requires a group_by parameter"
  /\ forall formula,
      calculate lib fs metric_name dataframe_path time_period group_by limit
      <> Failure ("Unknown formula: " ++ formula).
Proof.
  split; [|intros formula]; intros H;
    apply failure_message_initial in H;
    destruct H as (c & rest & [= <- _] & Hin); simpl in Hin;
    repeat (destruct Hin as [Hin|Hin]; [discriminate|]); exact Hin.
Qed.

(* ================================================================== *)
(** * Limits, listings and single months *)
(* ================================================================== *)

Lemma calculate_top_products (lib : Library) (fs : FileSystem)
      (dataframe_path time_period : string) (limit : Z) (df : DataFrame) :
  frame fs dataframe_path time_period = Some df ->
  calculate lib fs "top_products" dataframe_path time_period None limit
  = Ranking "top_products" limit
            (head limit
                  (sort_values lib
                     (relabel CStr
                        (groupby_sum String.eqb String.leb lib
                                     product revenue df)))).
Proof.
  intros Hf.
  now rewrite (calculate_ranking lib fs "top_products" _ _ "product" _ _ _ df
                                 eq_refl ltac:(discriminate) Hf).
Qed.

(** X15.  The limit of a ranking at its bounds: a limit of zero gives a
    ranking without entries; a limit at or above the number of groups lists
    every group; and a negative limit [-n] does not fail but leaves out the
    last [n] groups, those of the lowest sums. *)
Theorem ranking_limit_bounds (lib : Library) (fs : FileSystem)
        (dataframe_path time_period : string) (df : DataFrame) :
  frame fs dataframe_path time_period = Some df ->
  let full :=
    sort_values lib
      (relabel CStr (groupby_sum String.eqb String.leb lib
                                 product revenue df)) in
  calculate lib fs "top_products" dataframe_path time_period None 0
  = Ranking "top_products" 0 []
  /\ (forall limit, Z.of_nat (List.length full) <= limit ->
                    calculate lib fs "top_products" dataframe_path time_period
                              None limit
                    = Ranking "top_products" limit full)
  /\ (forall n : nat,
         (0 < n)%nat ->
         calculate lib fs "top_products" dataframe_path time_period None
                   (- Z.of_nat n)
         = Ranking "top_products" (- Z.of_nat n)
                   (firstn (List.length full - n) full)).
Proof.
  intros Hf full. split; [|split].
  - now rewrite (calculate_top_products _ _ _ _ _ _ Hf).
  - intros limit Hl. rewrite (calculate_top_products _ _ _ _ _ _ Hf).
    fold full. rewrite head_firstn by lia.
    rewrite firstn_all2 by lia. reflexivity.
  - intros n Hn. rewrite (calculate_top_products _ _ _ _ _ _ Hf).
    fold full. unfold head.
    destruct (Z.ltb_spec (- Z.of_nat n) 0); [|lia].
    now rewrite Z.opp_involutive, Nat2Z.id.
Qed.

Lemma ranking_limit_bounds_witness :
  calculate reference sample_files "top_products"
            "data/sample_sales_data.csv" "all" None (-1)
  = Ranking "top_products" (-1) [(CStr "Laptop", 180%float)].
Proof.
  exact (proj2 (proj2 (ranking_limit_bounds
                  reference sample_files "data/sample_sales_data.csv" "all"
                  sample_sales eq_refl)) 1%nat ltac:(lia)).
Defined.

Lemma relabel_index {K : Type} (f : K -> cell) (s : list (K * float)) :
  map fst (relabel f s) = map f (map fst s).
Proof. unfold relabel. rewrite !map_map. reflexivity. Qed.

Lemma NoDup_map_CStr (l : list string) : NoDup l -> NoDup (map CStr l).
Proof.
  induction 1 as [|x l Hx _ IH]; simpl; constructor; [|exact IH].
  rewrite in_map_iff. intros (y & [= ->] & Hy). contradiction.
Qed.

(** X16.  The listing of [revenue_by_channel] over a frame has one entry for
    each channel that has a row, and no other; each entry carries the sum
    the group-by takes of the revenue of the rows of its channel; and the
    sums never go up from one entry to the next. *)
Theorem revenue_by_channel_lists_every_channel (lib : Library)
        (fs : FileSystem) (dataframe_path time_period : string) (limit : Z)
        (df : DataFrame) :
  Lawful lib ->
  frame fs dataframe_path time_period = Some df ->
  exists items,
    calculate lib fs "revenue_by_channel" dataframe_path time_period None
              limit
    = Listing "revenue_by_channel" items
    /\ NoDup (map fst items)
    /\ (forall c, In (CStr c) (map fst items)
                  <-> exists r, In r df /\ channel r = Some c)
    /\ (forall c v,
           In (CStr c, v) items ->
           v = group_sum lib
                 (map revenue
                      (filter (fun r => match channel r with
                                        | Some c' => String.eqb c c'
                                        | None => false
                                        end) df)))
    /\ Sorted desc items.
Proof.
  intros Hlib Hf.
  set (grouped := groupby_sum String.eqb String.leb lib channel revenue df).
  exists (sort_values lib (relabel CStr grouped)).
  pose proof (sort_values_perm lib Hlib _ (relabel CStr grouped)) as Hperm.
  split; [|split; [|split; [|split]]].
  - now rewrite (calculate_listing _ _ _ _ _ _ _ Hf).
  - apply (Permutation_NoDup (Permutation_sym (Permutation_map fst Hperm))).
    rewrite relabel_index. apply NoDup_map_CStr.
    apply (groupby_sum_NoDup String.eqb String.leb lib String.eqb_eq).
  - intros c.
    assert (Hiff : In (CStr c)
                      (map fst (sort_values lib (relabel CStr grouped)))
                   <-> In (CStr c) (map fst (relabel CStr grouped))).
    { split; apply Permutation_in;
        [|apply Permutation_sym]; apply Permutation_map, Hperm. }
    rewrite Hiff, relabel_index, in_map_iff. unfold grouped.
    rewrite (groupby_sum_index String.eqb String.leb). split.
    + intros (k & [= ->] & Hin).
      apply (Permutation_in _ (sort_keys_perm _ _)) in Hin.
      apply (proj1 (uniques_In String.eqb String.eqb_eq _ _)) in Hin.
      now apply (proj1 (present_keys_In _ _ _)) in Hin.
    + intros Hr. exists c. split; [reflexivity|].
      apply (Permutation_in _ (Permutation_sym (sort_keys_perm _ _))).
      now apply (uniques_In String.eqb String.eqb_eq), present_keys_In.
  - intros c v Hin. apply (Permutation_in _ Hperm) in Hin.
    unfold relabel in Hin. apply in_map_iff in Hin.
    destruct Hin as ([k w] & [= -> ->] & Hin).
    apply (groupby_sum_In String.eqb String.leb lib String.eqb_eq) in Hin.
    exact (proj2 Hin).
  - apply (sort_values_sorted lib Hlib).
Qed.

Lemma revenue_by_channel_lists_every_channel_witness :
  exists items,
    calculate reference sample_files "revenue_by_channel"
              "data/sample_sales_data.csv" "all" None 5
    = Listing "revenue_by_channel" items
    /\ In (CStr "Partner") (map fst items).
Proof.
  destruct (revenue_by_channel_lists_every_channel
              reference sample_files "data/sample_sales_data.csv" "all" 5
              sample_sales reference_lawful eq_refl)
    as (items & Hc & _ & Hin & _).
  exists items. split; [exact Hc|]. apply Hin.
  eexists. split; [do 3 right; left; reflexivity | reflexivity].
Defined.

Lemma frame_filtered (fs : FileSystem) (dataframe_path time_period : string)
      (df : DataFrame) :
  frame fs dataframe_path time_period = Some df ->
  time_period <> "all" ->
  df <> [] /\ exists rows, fs dataframe_path = Csv rows
                           /\ _filter_by_time rows time_period = Ok df.
Proof.
  unfold frame. intros H Hp. apply String.eqb_neq in Hp.
  destruct (fs dataframe_path) as [| |rows]; try discriminate.
  destruct (to_datetime rows) as [df0|e] eqn:E; [|discriminate].
  apply to_datetime_ok in E. destruct E as [-> _]. rewrite Hp in H.
  destruct (_filter_by_time rows time_period) as [[|r df']|e] eqn:F;
    try discriminate.
  injection H as <-. split; [discriminate|]. exists rows. auto.
Qed.

Lemma calculate_monthly_revenue (lib : Library) (fs : FileSystem)
      (dataframe_path time_period : string) (group_by : option string)
      (limit : Z) (df : DataFrame) :
  frame fs dataframe_path time_period = Some df ->
  calculate lib fs "monthly_revenue" dataframe_path time_period group_by limit
  = Listing "monthly_revenue"
            (map (fun m => (CStr m, month_total lib m df)) (months_present df)).
Proof.
  intros Hf. unfold calculate.
  erewrite calculate_body_on_frame; [|reflexivity|exact Hf].
  change (apply_formula lib "monthly_revenue"
            (Metric.mk "time_series" "revenue" (Some "month_name")
                       "Revenue by month") df group_by limit)
    with (time_series lib "monthly_revenue" df "revenue").
  now rewrite time_series_revenue.
Qed.

(** X17.  With the name of a month as the period, [monthly_revenue] lists
    that month alone, with the sum the group-by takes of the revenue of the
    whole filtered frame. *)
Theorem monthly_revenue_of_one_month (lib : Library) (fs : FileSystem)
        (dataframe_path month_name_ : string) (group_by : option string)
        (limit : Z) (df : DataFrame) :
  In month_name_ month_order ->
  frame fs dataframe_path month_name_ = Some df ->
  calculate lib fs "monthly_revenue" dataframe_path month_name_ group_by limit
  = Listing "monthly_revenue"
            [(CStr month_name_, group_sum lib (map revenue df))].
Proof.
  intros Hin Hf.
  assert (Hall : month_name_ <> "all").
  { intros ->. revert Hin. not_listed. }
  destruct (frame_filtered _ _ _ _ Hf Hall) as (Hne & rows & _ & Hdf).
  rewrite (filter_by_month_name _ _ Hin) in Hdf. injection Hdf as Hdf.
  assert (Hm : forall r, In r df -> in_month month_name_ r = true).
  { intros r Hr. rewrite <- Hdf in Hr. apply filter_In in Hr.
    destruct Hr as [_ Hr]. unfold month_name_is in Hr. unfold in_month.
    destruct (month_name r); [|discriminate].
    now rewrite String.eqb_sym. }
  assert (He : forall m, existsb (in_month m) df = String.eqb m month_name_).
  { intros m. apply eq_true_iff_eq. rewrite existsb_exists, String.eqb_eq.
    split.
    - intros (r & Hr & E). apply Hm in Hr.
      apply in_month_spec in E, Hr. congruence.
    - intros ->. destruct df as [|r df']; [congruence|].
      exists r. split; [now left | apply Hm; now left]. }
  rewrite (calculate_monthly_revenue _ _ _ _ _ _ _ Hf).
  unfold months_present. rewrite (filter_ext _ _ He).
  assert (Hone : filter (fun m => String.eqb m month_name_) month_order
                 = [month_name_]).
  { simpl in Hin.
    repeat (destruct Hin as [<-|Hin]; [reflexivity|]). contradiction. }
  rewrite Hone. simpl. unfold month_total.
  rewrite (forallb_filter_id (in_month month_name_) df); [reflexivity|].
  now apply forallb_forall.
Qed.

Lemma monthly_revenue_of_one_month_witness :
  calculate reference sample_files "monthly_revenue"
            "data/sample_sales_data.csv" "February" None 5
  = Listing "monthly_revenue" [(CStr "February", 150%float)].
Proof.
  apply (monthly_revenue_of_one_month
           reference sample_files "data/sample_sales_data.csv" "February"
           None 5
           (filter (month_name_is "February") sample_sales));
    [simpl; auto 15 | reflexivity].
Defined.

Lemma filter_none {A : Type} (f : A -> bool) (l : list A) :
  (forall x, In x l -> f x = false) -> filter f l = [].
Proof.
  induction l as [|x l IH]; simpl; intros H; [reflexivity|].
  rewrite (H x (or_introl eq_refl)). apply IH. intros y Hy. apply H. now right.
Qed.

Lemma uniques_single (p : period) (l : list period) :
  (forall k, In k l -> k = p) ->
  (List.length (uniques period_eqb l) <= 1)%nat.
Proof.
  intros Hall. destruct l as [|k l]; simpl; [lia|].
  replace (filter (fun k' => negb (period_eqb k k')) (uniques period_eqb l))
    with (@nil period); [simpl; lia|].
  symmetry. apply filter_none. intros k' Hk'.
  apply (proj1 (uniques_In period_eqb period_eqb_eq _ _)) in Hk'.
  rewrite (Hall k (or_introl eq_refl)), (Hall k' (or_intror Hk')).
  apply negb_false_iff. now apply period_eqb_eq.
Qed.

(** X18.  When every dated row of the frame is dated in one month of one
    year, [growth_rate] has a single period at most and reports that it
    needs two months. *)
Theorem growth_needs_two_periods (lib : Library) (fs : FileSystem)
        (dataframe_path time_period : string) (group_by : option string)
        (limit : Z) (df : DataFrame) (p : period) :
  frame fs dataframe_path time_period = Some df ->
  (forall r p', In r df -> to_period_M r = Some p' -> p' = p) ->
  calculate lib fs "growth_rate" dataframe_path time_period group_by limit
  = Failure "Need at least 2 months for growth rate".
Proof.
  intros Hf Hp. unfold calculate.
  rewrite (calculate_growth_rate _ _ _ _ _ _ _ Hf).
  rewrite percentage_change_few_periods; [reflexivity|].
  unfold period_sums, groupby_sum. rewrite length_map.
  rewrite (Permutation_length (sort_keys_perm _ _)).
  assert (H1 := uniques_single p (present_keys to_period_M df)).
  assert (Hk : forall k, In k (present_keys to_period_M df) -> k = p).
  { intros k Hk. apply present_keys_In in Hk. destruct Hk as (r & Hr & E).
    exact (Hp r k Hr E). }
  specialize (H1 Hk). lia.
Qed.

Lemma growth_needs_two_periods_witness :
  calculate reference sample_files "growth_rate"
            "data/sample_sales_data.csv" "February" None 5
  = Failure "Need at least 2 months for growth rate"
  /\ calculate reference sample_files "growth_rate" "data/blank_cells.csv"
               "all" None 5
     = Failure "Need at least 2 months for growth rate".
Proof.
  split.
  - apply (growth_needs_two_periods
             reference sample_files "data/sample_sales_data.csv" "February"
             None 5
             (filter (month_name_is "February") sample_sales) (2024, 2)
             eq_refl).
    intros r p' Hr. simpl in Hr.
    destruct Hr as [<-|[<-|[]]]; now intros [= <-].
  - apply (growth_needs_two_periods
             reference sample_files "data/blank_cells.csv" "all" None 5
             blank_cells (2024, 3) eq_refl).
    intros r p' Hr. simpl in Hr.
    destruct Hr as [<-|[<-|[]]]; [now intros [= <-] | discriminate].
Defined.

(* ================================================================== *)
(** * The keyword router *)
(* ================================================================== *)

Lemma prefix_app (a s : string) :
  prefix a s = true <-> exists post, s = a ++ post.
Proof.
  revert s. induction a as [|c a IH]; intros s.
  - destruct s; simpl; (split; [intros _; eexists; reflexivity | reflexivity]).
  - destruct s as [|c' s]; simpl;
      [split; [discriminate | intros [post H]; discriminate]|].
    destruct (Ascii.ascii_dec c c') as [->|Hne].
    + rewrite IH. split; intros [post H]; exists post; congruence.
    + split; [discriminate | intros [post [= H _]]; congruence].
Qed.

(** [needle in s] holds exactly when [needle] occurs in [s]. *)
Lemma str_in_contains (needle s : string) :
  str_in needle s = true <-> contains needle s.
Proof.
  induction s as [|c s IH]; cbn [str_in].
  - destruct (prefix needle "") eqn:E.
    + split; [intros _ | reflexivity].
      apply prefix_app in E. destruct E as [post E].
      exists "", post. exact E.
    + split; [discriminate|]. intros ([|x pre] & post & H).
      * assert (P : prefix needle "" = true)
          by (apply prefix_app; now exists post).
        congruence.
      * discriminate.
  - destruct (prefix needle (String c s)) eqn:E.
    + split; [intros _ | reflexivity].
      apply prefix_app in E. destruct E as [post E].
      exists "", post. exact E.
    + rewrite IH. split.
      * intros (pre & post & ->). now exists (String c pre), post.
      * intros ([|x pre] & post & H).
        -- assert (P : prefix needle (String c s) = true)
             by (apply prefix_app; now exists post).
           congruence.
        -- injection H as _ H. now exists pre, post.
Qed.

Lemma lower_char_idem (c : ascii) : lower_char (lower_char c) = lower_char c.
Proof.
  unfold lower_char.
  destruct ((65 <=? N_of_ascii c)%N && (N_of_ascii c <=? 90)%N) eqn:E.
  - apply andb_true_iff in E. destruct E as [H1 H2].
    apply N.leb_le in H1, H2.
    rewrite N_ascii_embedding by lia.
    destruct ((65 <=? N_of_ascii c + 32)%N && (N_of_ascii c + 32 <=? 90)%N)
             eqn:E'; [|reflexivity].
    apply andb_true_iff in E'. destruct E' as [_ H3].
    apply N.leb_le in H3. lia.
  - now rewrite E.
Qed.

Lemma lower_idem (s : string) : lower (lower s) = lower s.
Proof.
  induction s as [|c s IH]; simpl; [reflexivity|].
  now rewrite lower_char_idem, IH.
Qed.

(** X19.  The router matches keywords without regard to the case of the
    ASCII letters: a question and its lower-case form get the same
    answer. *)
Theorem execute_metrics_ignores_case (lib : Library) (fs : FileSystem)
        (float_repr : float -> string) (question : string) :
  _execute_metrics lib fs float_repr (lower question)
  = _execute_metrics lib fs float_repr question.
Proof. unfold _execute_metrics. now rewrite lower_idem. Qed.

Lemma both_in (a b s : string) :
  str_in a s && str_in b s = true <-> contains a s /\ contains b s.
Proof. now rewrite andb_true_iff, !str_in_contains. Qed.

Lemma either_in (a b s : string) :
  str_in a s || str_in b s = true <-> contains a s \/ contains b s.
Proof. now rewrite orb_true_iff, !str_in_contains. Qed.

Lemma not_true_false (b : bool) (P : Prop) :
  (b = true <-> P) -> (b = false <-> ~ P).
Proof.
  intros H. destruct b; split; intros H1; try discriminate; try reflexivity.
  - exfalso. apply H1, H. reflexivity.
  - intros HP. apply H in HP. discriminate.
Qed.

(** X20.  The router answers [None] exactly when the question, in lower
    case, triggers none of its six rules: not "revenue" with "total", not
    "top" with "product", not "growth", not "customer", not "region" with
    "top", and neither "q1" nor "quarter 1". *)
Theorem execute_metrics_none (lib : Library) (fs : FileSystem)
        (float_repr : float -> string) (question : string) :
  let q := lower question in
  _execute_metrics lib fs float_repr question = None
  <-> ~ (contains "revenue" q /\ contains "total" q)
      /\ ~ (contains "top" q /\ contains "product" q)
      /\ ~ contains "growth" q
      /\ ~ contains "customer" q
      /\ ~ (contains "region" q /\ contains "top" q)
      /\ ~ (contains "q1" q \/ contains "quarter 1" q).
Proof.
  intros q.
  rewrite <- (not_true_false _ _ (both_in "revenue" "total" q)).
  rewrite <- (not_true_false _ _ (both_in "top" "product" q)).
  rewrite <- (not_true_false _ _ (str_in_contains "growth" q)).
  rewrite <- (not_true_false _ _ (str_in_contains "customer" q)).
  rewrite <- (not_true_false _ _ (both_in "region" "top" q)).
  rewrite <- (not_true_false _ _ (either_in "q1" "quarter 1" q)).
  unfold _execute_metrics. fold q.
  destruct (str_in "revenue" q && str_in "total" q),
           (str_in "top" q && str_in "product" q),
           (str_in "growth" q),
           (str_in "customer" q),
           (str_in "region" q && str_in "top" q),
           (str_in "q1" q || str_in "quarter 1" q);
    cbn [app];
    (split;
     [ intros H; try discriminate H; repeat split; reflexivity
     | intros (? & ? & ? & ? & ? & ?); first [reflexivity | discriminate] ]).
Qed.

(** X21.  A question that, in lower case, has "top" and "product" is
    answered with the ranking of the products over the default data file,
    all periods, among the parts of the answer: the first ten when the
    question also has "top 10" or "top ten", the first five otherwise. *)
Theorem execute_metrics_top_products (lib : Library) (fs : FileSystem)
        (float_repr : float -> string) (question : string) :
  let q := lower question in
  contains "top" q -> contains "product" q ->
  exists answer,
    _execute_metrics lib fs float_repr question = Some answer
    /\ ((contains "top 10" q \/ contains "top ten" q) ->
        contains (render float_repr
                         (calculate lib fs "top_products"
                                    "data/sample_sales_data.csv" "all" None 10))
                 answer)
    /\ (~ (contains "top 10" q \/ contains "top ten" q) ->
        contains (render float_repr
                         (calculate lib fs "top_products"
                                    "data/sample_sales_data.csv" "all" None 5))
                 answer).
Proof.
  intros q Ht Hp.
  pose proof (either_in "top 10" "top ten" q) as Hb.
  unfold _execute_metrics. fold q.
  rewrite (proj2 (both_in "top" "product" q) (conj Ht Hp)).
  destruct (str_in "top 10" q || str_in "top ten" q);
  destruct (str_in "revenue" q && str_in "total" q),
           (str_in "growth" q),
           (str_in "customer" q),
           (str_in "region" q && str_in "top" q),
           (str_in "q1" q || str_in "quarter 1" q);
    cbn [app]; eexists; (split; [reflexivity|]);
    (split; intros H;
     first [ apply contains_join; simpl; now auto 10
           | apply Hb in H; discriminate H
           | exfalso; apply H, Hb; reflexivity ]).
Qed.

Lemma execute_metrics_top_products_witness :
  exists answer,
    _execute_metrics reference sample_files no_float_labels
                     "Show me the Top Ten products" = Some answer
    /\ contains (render no_float_labels
                        (calculate reference sample_files "top_products"
                                   "data/sample_sales_data.csv" "all" None 10))
                answer.
Proof.
  destruct (execute_metrics_top_products
              reference sample_files no_float_labels "Show me the Top Ten products")
    as (answer & Ha & H10 & _).
  - apply str_in_contains. reflexivity.
  - apply str_in_contains. reflexivity.
  - exists answer. split; [exact Ha|]. apply H10. right.
    apply str_in_contains. reflexivity.
Defined.

(* ================================================================== *)
(** * The list of metrics *)
(* ================================================================== *)

(** X22.  [list_metrics] names every metric [calculate] knows: for each
    entry of the catalogue its text has the line "- name: description", and
    a name on no such line of the catalogue is refused by [calculate] as not
    found. *)
Theorem list_metrics_names_the_catalogue (metric_name : string) :
  (forall metric_def,
      lookup metric_name METRIC_DEFINITIONS = Some metric_def ->
      contains ("- " ++ metric_name ++ ": " ++ Metric.description metric_def
                ++ NL)
               list_metrics)
  /\ (lookup metric_name METRIC_DEFINITIONS = None ->
      forall lib fs dataframe_path time_period group_by limit,
        is_failure (calculate lib fs metric_name dataframe_path time_period
                              group_by limit) = true
        /\ contains "not found"
                    (render no_float_labels
                            (calculate lib fs metric_name dataframe_path
                                       time_period group_by limit))).
Proof.
  split.
  - unfold METRIC_DEFINITIONS, lookup. intros metric_def Hm.
    repeat match type of Hm with
           | (if String.eqb metric_name ?s then _ else _) = _ =>
               destruct (String.eqb_spec metric_name s) as [->|_];
               [injection Hm as <-; apply str_in_contains; reflexivity|]
           end.
    discriminate.
  - intros Hn lib fs dataframe_path time_period group_by limit.
    assert (Hk : mem metric_name (keys METRIC_DEFINITIONS) = false).
    { destruct (mem metric_name (keys METRIC_DEFINITIONS)) eqn:E;
        [|reflexivity].
      apply mem_In, lookup_keys in E. destruct E as [v E]. congruence. }
    unfold calculate, calculate_body. rewrite Hk. cbn [negb is_failure render].
    split; [reflexivity|].
    do 4 apply contains_prefix.
    exists "' ", ("." ++ NL ++ NL ++ "Available: "
                  ++ join ", " (keys METRIC_DEFINITIONS)).
    reflexivity.
Qed.

Lemma list_metrics_names_the_catalogue_witness :
  contains ("- growth_rate: Month-over-month growth rate" ++ NL) list_metrics.
Proof.
  exact (proj1 (list_metrics_names_the_catalogue "growth_rate") _ eq_refl).
Defined.

Lemma execute_metrics_none_witness :
  _execute_metrics reference sample_files no_float_labels "How are we doing?"
  = None.
Proof.
  apply (proj2 (execute_metrics_none reference sample_files no_float_labels
                                     "How are we doing?")).
  repeat split; intros H;
    repeat match goal with
           | H : _ /\ _ |- _ => destruct H as [H _]
           | H : _ \/ _ |- _ => destruct H as [H|H]
           end;
    apply str_in_contains in H; discriminate H.
Defined.
